(** * Lima display and clipboard coordination: a shallow embedding

    The development follows three Go packages of the repository:

    - [spiceservice] (pkg/guestagent/spiceservice/spiceservice_linux.go):
      the guest-side detector [DetectSpiceStatus] and the supervisor
      [EnsureSpiceAgent];
    - [spiceclient]: the display-string codec [GetConnectionInfo],
      [buildSpiceURI] and the viewer lookup [FindViewer];
    - the display session controller of the VZ driver, whose code lives in
      the virtualization binding and is described by the specification only.

    Go strings are byte strings, and so are the strings of [Stdlib.Strings].
    Every call that leaves the process (directory listing, search-path
    lookup, subprocess, sleep) is an [Action]; the program runs against an
    [Oracle] that answers each action knowing everything done before, and
    the list of actions done is threaded through as the state. *)

From Stdlib Require Import String Ascii List Bool Arith Lia ZArith DecimalString.
Import ListNotations.
Open Scope string_scope.

(** ** The functions of Go's [strings] package that the code calls *)

Module strings.

(** [strings.HasPrefix(s, prefix)]. *)
Definition HasPrefix (s pre : string) : bool := String.prefix pre s.

Fixpoint drop (n : nat) (s : string) : string :=
  match n, s with
  | O, _ => s
  | S _, EmptyString => EmptyString
  | S n', String _ s' => drop n' s'
  end.

(** [strings.TrimPrefix(s, prefix)]: [s] without the leading [prefix],
    or [s] itself when it does not start with it. *)
Definition TrimPrefix (s pre : string) : string :=
  if HasPrefix s pre then drop (String.length pre) s else s.

(** [strings.Index(s, substr)]: the offset of the first occurrence. *)
Fixpoint Index (s sub : string) : option nat :=
  if String.prefix sub s then Some 0
  else match s with
       | EmptyString => None
       | String _ s' => option_map S (Index s' sub)
       end.

(** [strings.Contains(s, substr)]. *)
Definition Contains (s sub : string) : bool :=
  match Index s sub with Some _ => true | None => false end.

(** [strings.Cut(s, sep)] for a one-byte separator: the text before and
    after the first [sep]. *)
Fixpoint Cut (s : string) (sep : ascii) : option (string * string) :=
  match s with
  | EmptyString => None
  | String c s' =>
      if Ascii.eqb c sep then Some (EmptyString, s')
      else match Cut s' sep with
           | Some (before, after) => Some (String c before, after)
           | None => None
           end
  end.

(** [strings.Split(s, sep)] for a one-byte separator, the only use the
    code makes of it: all the pieces between separators; a string
    without separator is returned as the one piece. *)
Fixpoint Split (s : string) (sep : ascii) : list string :=
  match s with
  | EmptyString => [EmptyString]
  | String c s' =>
      if Ascii.eqb c sep then EmptyString :: Split s' sep
      else match Split s' sep with
           | piece :: pieces => String c piece :: pieces
           | [] => [String c EmptyString]
           end
  end.

(** [strings.SplitN(s, sep, 2)] for a one-byte separator: at most two
    pieces, cut at the first separator. *)
Definition SplitN2 (s : string) (sep : ascii) : list string :=
  match Cut s sep with
  | Some (before, after) => [before; after]
  | None => [s]
  end.

(** The ASCII white space of [strings.TrimSpace]:
    tab, line feed, vertical tab, form feed, carriage return, space. *)
Definition isSpace (c : ascii) : bool :=
  let n := nat_of_ascii c in
  Nat.eqb n 9 || Nat.eqb n 10 || Nat.eqb n 11 || Nat.eqb n 12
  || Nat.eqb n 13 || Nat.eqb n 32.

Fixpoint TrimLeft (s : string) : string :=
  match s with
  | EmptyString => EmptyString
  | String c s' => if isSpace c then TrimLeft s' else s
  end.

Fixpoint TrimRight (s : string) : string :=
  match s with
  | EmptyString => EmptyString
  | String c s' =>
      match TrimRight s' with
      | EmptyString => if isSpace c then EmptyString else String c EmptyString
      | t => String c t
      end
  end.

(** [strings.TrimSpace(s)] on ASCII text. *)
Definition TrimSpace (s : string) : string := TrimRight (TrimLeft s).

(** [strings.Join(elems, sep)]. *)
Definition Join (elems : list string) (sep : string) : string :=
  String.concat sep elems.

(** [strings.ToLower(s)] on ASCII text: the letters A to Z become a to z. *)
Definition lowerByte (c : ascii) : ascii :=
  let n := nat_of_ascii c in
  if Nat.leb 65 n && Nat.leb n 90 then ascii_of_nat (n + 32) else c.

Fixpoint ToLower (s : string) : string :=
  match s with
  | EmptyString => EmptyString
  | String c s' => String (lowerByte c) (ToLower s')
  end.

(** [strings.Fields(s)] on ASCII text: the pieces between runs of white
    space, none of them empty. *)
Fixpoint Fields (s : string) : list string :=
  match s with
  | EmptyString => []
  | String c s' =>
      if isSpace c then Fields s'
      else
        match s' with
        | EmptyString => [String c EmptyString]
        | String c' _ =>
            if isSpace c' then String c EmptyString :: Fields s'
            else match Fields s' with
                 | f :: fs => String c f :: fs
                 | [] => [String c EmptyString]
                 end
        end
  end.

End strings.

(** ** Errors and calls to the outside *)

(** A Go [error]: [None] is [nil], [Some msg] carries the text of
    [err.Error()]. *)
Definition error := option string.

Definition isNil (e : error) : bool :=
  match e with None => true | Some _ => false end.

(** [fmt.Errorf(prefix + "%w", err)]. *)
Definition wrap (pre : string) (e : error) : error :=
  match e with
  | None => Some pre
  | Some msg => Some (pre ++ msg)
  end.

Inductive Action : Type :=
| ReadDir (dir : string)                    (* os.ReadDir *)
| Stat (path : string)                      (* os.Stat *)
| LookPath (file : string)                  (* exec.LookPath *)
| Run (timeout : option nat) (name : string) (args : list string)
                                            (* exec.CommandContext(...).Run/Output/CombinedOutput;
                                               [timeout] is the context's own deadline in seconds *)
| Sleep (ms : nat).                         (* time.Sleep *)

(** What a call gives back: the error, the text (a resolved path, or the
    output of a subprocess) and, for a directory, the names of the entries. *)
Record Response : Type := mkResponse {
  err : error;
  out : string;
  names : list string
}.

Definition ok (r : Response) : bool := isNil (err r).

(** The environment: the answer to an action, given the actions before it. *)
Definition Oracle : Type := list Action -> Action -> Response.

(** A computation reads the oracle and extends the trace. *)
Definition M (A : Type) : Type := Oracle -> list Action -> A * list Action.

Definition ret {A : Type} (a : A) : M A := fun _ tr => (a, tr).

Definition bind {A B : Type} (m : M A) (k : A -> M B) : M B :=
  fun o tr => let (a, tr') := m o tr in k a o tr'.

Definition call (a : Action) : M Response :=
  fun o tr => (o tr a, (tr ++ [a])%list).

Declare Scope go_scope.
Delimit Scope go_scope with go.
Notation "x <- c ;; k" := (bind c (fun x => k))
  (at level 61, c at next level, right associativity) : go_scope.
Notation "c ;;; k" := (bind c (fun _ => k))
  (at level 61, right associativity) : go_scope.
Open Scope go_scope.

(** ** Package spiceservice (guest side) *)

Module spiceservice.

(** [type SpiceStatus struct]. *)
Record SpiceStatus : Type := mkSpiceStatus {
  AgentInstalled : bool;
  AgentRunning : bool;
  VPortExists : bool;
  ClipboardReady : bool;
  ErrorMessage : string
}.

Definition msgNoPort : string :=
  "virtio console port not found (host SPICE not configured)".
Definition msgNotInstalled : string := "spice-vdagent package not installed".
Definition msgNotRunning : string := "spice-vdagentd service not running".

(** [func buildErrorMessage(status *SpiceStatus) string]. *)
Definition buildErrorMessage (status : SpiceStatus) : string :=
  let reasons := [] in
  let reasons :=
    if negb (VPortExists status) then (reasons ++ [msgNoPort])%list else reasons in
  let reasons :=
    if negb (AgentInstalled status) then (reasons ++ [msgNotInstalled])%list
    else reasons in
  let reasons :=
    if AgentInstalled status && negb (AgentRunning status)
    then (reasons ++ [msgNotRunning])%list else reasons in
  if Nat.eqb (List.length reasons) 0 then ""
  else "SPICE clipboard not ready: " ++ strings.Join reasons "; ".

(** [func checkVirtioPort() bool]. *)
Definition checkVirtioPort : M bool :=
  matches <- call (ReadDir "/dev") ;;
  if negb (ok matches) then ret false
  else if existsb (fun entry => strings.HasPrefix entry "vport") (names matches)
  then ret true
  else
    st <- call (Stat "/sys/class/virtio-ports") ;;
    if ok st then
      entries <- call (ReadDir "/sys/class/virtio-ports") ;;
      if ok entries && Nat.ltb 0 (List.length (names entries)) then ret true
      else ret false
    else ret false.

(** [func checkSpiceInstalled(ctx context.Context) bool]. *)
Definition checkSpiceInstalled : M bool :=
  bin <- call (LookPath "spice-vdagentd") ;;
  if ok bin then ret true
  else
    dpkg <- call (Run (Some 2) "dpkg" ["-l"; "spice-vdagent"]) ;;
    if ok dpkg then ret true
    else
      rpm <- call (Run (Some 2) "rpm" ["-q"; "spice-vdagent"]) ;;
      if ok rpm then ret true else ret false.

(** [func checkSpiceRunning(ctx context.Context) bool]. *)
Definition checkSpiceRunning : M bool :=
  active <- call (Run (Some 2) "systemctl" ["is-active"; "spice-vdagentd"]) ;;
  if ok active && String.eqb (strings.TrimSpace (out active)) "active"
  then ret true
  else
    pgrep <- call (Run None "pgrep" ["-x"; "spice-vdagentd"]) ;;
    if ok pgrep then ret true else ret false.

(** [func DetectSpiceStatus(ctx context.Context) *SpiceStatus]. *)
Definition DetectSpiceStatus : M SpiceStatus :=
  vport <- checkVirtioPort ;;
  installed <- checkSpiceInstalled ;;
  running <- (if installed then checkSpiceRunning else ret false) ;;
  let ready := vport && installed && running in
  let status := mkSpiceStatus installed running vport ready "" in
  if negb ready
  then ret (mkSpiceStatus installed running vport ready
                          (buildErrorMessage status))
  else ret status.

(** One row of the [packageManagers] table of [installSpiceAgent]. *)
Record PackageManager : Type := mkPM {
  cmd : string;
  args : list string;
  pkgName : string
}.

Definition packageManagers : list PackageManager :=
  [ mkPM "apt-get" ["install"; "-y"] "spice-vdagent";
    mkPM "dnf" ["install"; "-y"] "spice-vdagent";
    mkPM "yum" ["install"; "-y"] "spice-vdagent";
    mkPM "zypper" ["install"; "-y"] "spice-vdagent";
    mkPM "pacman" ["-S"; "--noconfirm"] "spice-vdagent" ].

(** The subprocess that installs the package with [pm]. *)
Definition installCommand (pm : PackageManager) : Action :=
  Run (Some 60) (cmd pm) (args pm ++ [pkgName pm])%list.

Definition errInstall : string :=
  "no supported package manager found or installation failed".

(** The [for _, pm := range packageManagers] loop of
    [installSpiceAgent]: both [continue]s go on with the rest of the
    table, the [return nil] leaves. *)
Fixpoint installWith (pms : list PackageManager) : M error :=
  match pms with
  | [] =>
      ret (Some errInstall)
  | pm :: rest =>
      probe <- call (LookPath (cmd pm)) ;;
      if negb (ok probe) then installWith rest
      else
        res <- call (installCommand pm) ;;
        if negb (ok res) then installWith rest
        else ret None
  end.

(** [func installSpiceAgent(ctx context.Context) error]. *)
Definition installSpiceAgent : M error := installWith packageManagers.

Definition enableCommand : Action :=
  Run (Some 10) "systemctl" ["enable"; "spice-vdagentd"].
Definition startCommand : Action :=
  Run (Some 10) "systemctl" ["start"; "spice-vdagentd"].

(** [func startSpiceService(ctx context.Context) error]. *)
Definition startSpiceService : M error :=
  call enableCommand ;;;
  started <- call startCommand ;;
  match err started with
  | Some e =>
      ret (Some ("failed to start spice-vdagentd: " ++ e
                 ++ " (output: " ++ out started ++ ")"))
  | None =>
      call (Sleep 500) ;;;
      running <- checkSpiceRunning ;;
      if negb running then ret (Some "service started but not running")
      else ret None
  end.

Definition errNoPort : string :=
  "virtio console port not available (host SPICE not configured)".

(** [func EnsureSpiceAgent(ctx context.Context) error].  The assignment
    [status.AgentInstalled = true] after a successful install is local
    and read by nothing that follows. *)
Definition EnsureSpiceAgent : M error :=
  status <- DetectSpiceStatus ;;
  if ClipboardReady status then ret None
  else if negb (VPortExists status) then ret (Some errNoPort)
  else
    installed <-
      (if negb (AgentInstalled status) then installSpiceAgent else ret None) ;;
    match installed with
    | Some _ => ret (wrap "failed to install spice-vdagent: " installed)
    | None =>
        if negb (AgentRunning status) then
          started <- startSpiceService ;;
          match started with
          | Some _ => ret (wrap "failed to start spice-vdagentd: " started)
          | None => ret None
          end
        else ret None
    end.

(** The actions that change the guest: an install by one of the package
    managers, and the enable and start requests to the service manager. *)
Definition isInstall (a : Action) : bool :=
  match a with
  | Run _ name _ =>
      existsb (fun pm => String.eqb name (cmd pm)) packageManagers
  | _ => false
  end.

Definition isEnableOrStart (a : Action) : bool :=
  match a with
  | Run _ name (sub :: _) =>
      String.eqb name "systemctl"
      && (String.eqb sub "enable" || String.eqb sub "start")
  | _ => false
  end.

Definition isRepair (a : Action) : bool := isInstall a || isEnableOrStart a.

End spiceservice.


(** ** Package spiceclient (host side) *)

(** A Go result pair [(value, error)] of which exactly one side is meant. *)
Inductive result (A : Type) : Type :=
| Ok (a : A)
| Err (msg : string).
Arguments Ok {A} a.
Arguments Err {A} msg.

Module spiceclient.

(** [type Connection struct]. *)
Record Connection : Type := mkConnection {
  Host : string;
  Port : string;
  Password : string;
  UnixPath : string;
  Audio : bool
}.

Definition setHost (v : string) (c : Connection) : Connection :=
  mkConnection v (Port c) (Password c) (UnixPath c) (Audio c).
Definition setPort (v : string) (c : Connection) : Connection :=
  mkConnection (Host c) v (Password c) (UnixPath c) (Audio c).
Definition setPassword (v : string) (c : Connection) : Connection :=
  mkConnection (Host c) (Port c) v (UnixPath c) (Audio c).
Definition setUnixPath (v : string) (c : Connection) : Connection :=
  mkConnection (Host c) (Port c) (Password c) v (Audio c).

(** [conn := &Connection{}]. *)
Definition zeroConnection : Connection := mkConnection "" "" "" "" false.

Definition comma : ascii := ","%char.
Definition equals : ascii := "="%char.

(** The body of [for _, part := range parts] in [GetConnectionInfo]. *)
Definition parseOption (conn : Connection) (part : string) : Connection :=
  if String.eqb part "spice" then conn
  else
    match strings.SplitN2 part equals with
    | [k; v] =>
        let key := strings.TrimSpace k in
        let value := strings.TrimSpace v in
        if String.eqb key "port" then setPort value conn
        else if String.eqb key "addr" then setHost value conn
        else if String.eqb key "password" then setPassword value conn
        else conn
    | _ => conn
    end.

(** [func GetConnectionInfo(displayString string)], returning the
    connection or an error. *)
Definition GetConnectionInfo (displayString : string) : result Connection :=
  let conn := zeroConnection in
  if strings.HasPrefix displayString "spice+unix://" then
    Ok (setUnixPath (strings.TrimPrefix displayString "spice+unix://") conn)
  else if negb (strings.HasPrefix displayString "spice") then
    Err ("invalid SPICE display string: " ++ displayString)
  else
    let conn := setPort "5900" (setHost "127.0.0.1" conn) in
    let parts := strings.Split displayString comma in
    Ok (fold_left parseOption parts conn).

(** [func buildSpiceURI(conn)], returning the URI or an error. *)
Definition buildSpiceURI (conn : Connection) : result string :=
  if negb (String.eqb (UnixPath conn) "") then
    Ok ("spice+unix://" ++ UnixPath conn)
  else if String.eqb (Host conn) "" || String.eqb (Port conn) "" then
    Err "host and port required for TCP connection"
  else
    let uri := "spice://" ++ Host conn ++ ":" ++ Port conn in
    if negb (String.eqb (Password conn) "") then
      Ok (uri ++ "?password=" ++ Password conn)
    else Ok uri.

(** The [switch runtime.GOOS] of [FindViewer]: the ordered candidates of a
    platform, none for a platform the switch does not name. *)
Definition candidates (goos : string) : option (list string) :=
  if String.eqb goos "darwin" then Some ["remote-viewer"; "spicy"]
  else if String.eqb goos "linux" then
    Some ["remote-viewer"; "spicy"; "virt-viewer"]
  else if String.eqb goos "windows" then
    Some ["remote-viewer.exe"; "spicy.exe"; "virt-viewer.exe"]
  else None.

Definition errNoViewer : string :=
  "no SPICE viewer found, install remote-viewer or spicy".

(** The [for _, viewer := range candidates] loop of [FindViewer]. *)
Fixpoint lookFirst (cs : list string) : M (result string) :=
  match cs with
  | [] => ret (Err errNoViewer)
  | viewer :: rest =>
      found <- call (LookPath viewer) ;;
      if ok found then ret (Ok (out found)) else lookFirst rest
  end.

(** [func FindViewer()], returning the path or an error, with
    [runtime.GOOS] as argument. *)
Definition FindViewer (goos : string) : M (result string) :=
  match candidates goos with
  | Some cs => lookFirst cs
  | None => ret (Err ("unsupported platform: " ++ goos))
  end.

(** [func buildViewerArgs(viewer string, conn *Connection)], returning the
    arguments or an error. *)
Definition buildViewerArgs (viewer : string) (conn : Connection)
  : result (list string) :=
  let viewerName := strings.ToLower viewer in
  if strings.Contains viewerName "remote-viewer"
     || strings.Contains viewerName "virt-viewer" then
    match buildSpiceURI conn with
    | Err e => Err e
    | Ok uri =>
        let args := [uri] in
        let args := (args ++ ["--full-screen"])%list in
        let args :=
          if negb (Audio conn) then (args ++ ["--spice-disable-audio"])%list
          else args in
        Ok args
    end
  else if strings.Contains viewerName "spicy" then
    if negb (String.eqb (UnixPath conn) "") then
      Err "spicy does not support Unix socket connections"
    else
      let args := ["-h"; Host conn; "-p"; Port conn] in
      let args :=
        if negb (String.eqb (Password conn) "")
        then (args ++ ["-w"; Password conn])%list else args in
      Ok args
  else Err ("unknown SPICE viewer type: " ++ viewer).

(** [func LaunchViewer(ctx context.Context, conn *Connection) error], with
    [runtime.GOOS] as argument.  [cmd.Start()] is recorded as a [Run]
    action under the caller's context, answered with the error of the
    start; the goroutine that waits for the viewer and logs how it exits
    returns nothing to the caller and is left out. *)
Definition LaunchViewer (goos : string) (conn : Connection) : M error :=
  found <- FindViewer goos ;;
  match found with
  | Err e => ret (Some ("failed to find SPICE viewer: " ++ e))
  | Ok viewer =>
      match buildViewerArgs viewer conn with
      | Err e => ret (Some ("failed to build viewer arguments: " ++ e))
      | Ok args =>
          started <- call (Run None viewer args) ;;
          match err started with
          | Some e => ret (Some ("failed to start SPICE viewer: " ++ e))
          | None => ret None
          end
      end
  end.

End spiceclient.

(** ** The display session controller of the embedded-framework driver *)

Module session.

(** Modelled from the spec: the Host Display Session Controller.  Its
    operations ([StartGraphicApplication], [BringWindowToFront],
    [HasGUIWindow] and the window-close callback) belong to the
    virtualization binding that the VZ driver calls; the repository holds
    their callers and their description only.  The states, the legal
    transitions and the two session-state errors are those of the
    specification's state machine. *)
Inductive DisplaySessionState : Type :=
| Uninitialized
| Created
| Visible
| Hidden
| Stopped.

Inductive SessionStateError : Type :=
| AlreadyStartedError
| NotInitializedError.

(** The configured window dimensions, either of which may be left out. *)
Record Config : Type := mkConfig {
  width : option nat;
  height : option nat
}.

Definition defaultWidth : nat := 1920.
Definition defaultHeight : nat := 1200.

(** Modelled from the spec: one controller per running machine; it owns the
    state and, once started, the dimensions of the native session. *)
Record Controller : Type := mkController {
  state : DisplaySessionState;
  dimensions : option (nat * nat)
}.

Definition newController : Controller := mkController Uninitialized None.

(** Modelled from the spec: [HasSession] is true for Created, Visible and
    Hidden, false for Uninitialized and Stopped. *)
Definition HasSession (c : Controller) : bool :=
  match state c with
  | Created | Visible | Hidden => true
  | Uninitialized | Stopped => false
  end.

(** Modelled from the spec: [Start] is legal from Uninitialized only, where
    it constructs the session with the configured or default dimensions;
    anywhere else it fails with AlreadyStartedError and changes nothing. *)
Definition Start (cfg : Config) (c : Controller)
  : Controller * option SessionStateError :=
  match state c with
  | Uninitialized =>
      let w := match width cfg with Some w => w | None => defaultWidth end in
      let h := match height cfg with Some h => h | None => defaultHeight end in
      (mkController Created (Some (w, h)), None)
  | _ => (c, Some AlreadyStartedError)
  end.

(** Modelled from the spec: [BringToForeground] is legal from Created,
    Visible and Hidden and leaves the window Visible; it fails with
    NotInitializedError from Uninitialized.  For Stopped the specification
    names no outcome beyond the call not being legal; the model reports the
    same error there, the controller having no session in either state. *)
Definition BringToForeground (c : Controller)
  : Controller * option SessionStateError :=
  match state c with
  | Created | Visible | Hidden => (mkController Visible (dimensions c), None)
  | Uninitialized | Stopped => (c, Some NotInitializedError)
  end.

(** Modelled from the spec: the [show] arrow, Created to Visible. *)
Definition Show (c : Controller) : Controller :=
  match state c with
  | Created => mkController Visible (dimensions c)
  | _ => c
  end.

(** Modelled from the spec: the [hide] arrow, Visible to Hidden. *)
Definition Hide (c : Controller) : Controller :=
  match state c with
  | Visible => mkController Hidden (dimensions c)
  | _ => c
  end.

(** Modelled from the spec: the close transition, fired by the user or the
    framework, moves unconditionally to Stopped. *)
Definition Close (c : Controller) : Controller :=
  mkController Stopped (dimensions c).

(** What may happen to a window between its start and its close. *)
Inductive WindowEvent : Type :=
| EvShow
| EvHide
| EvForeground.

Definition handle (c : Controller) (e : WindowEvent) : Controller :=
  match e with
  | EvShow => Show c
  | EvHide => Hide c
  | EvForeground => fst (BringToForeground c)
  end.

End session.


(** ** The instance and its configuration (package limatype) *)

Module limatype.

(** What the code reads of [limatype.GUIInfo]. *)
Module GUIInfo.
Record t : Type := mk {
  Display : string;
  Enabled : bool;
  CanRunGUI : bool;
  Resolution : string;
  ClipboardShared : bool;
  AudioEnabled : bool
}.
End GUIInfo.

(** [Video.VZ]: the pointers are options, [nil] being [None]. *)
Record VZOptions : Type := mkVZOptions {
  Width : option Z;
  Height : option Z;
  DisableClipboard : option bool
}.

Record Video : Type := mkVideo {
  Display : option string;
  VZ : VZOptions
}.

Record Audio : Type := mkAudio {
  Device : option string
}.

(** What the code reads of the configuration [inst.Config]. *)
Record LimaYAML : Type := mkLimaYAML {
  video : Video;
  audio : Audio
}.

(** What the code reads of [limatype.Instance]. *)
Record Instance : Type := mkInstance {
  Name : string;
  Config : option LimaYAML;
  Status : string;
  VMType : string;
  GUI : option GUIInfo.t
}.

(** [limatype.StatusRunning] is the text the show-gui command compares the
    status with.  [limatype.StatusStopped] is declared outside the files
    at hand; no statement below depends on its text. *)
Definition StatusRunning : string := "Running".
Definition StatusStopped : string := "Stopped".

End limatype.

(** ** Package store: the GUI part of an inspected instance *)

Module store.

Import limatype.

(** [fmt.Sprintf("%d", n)]. *)
Definition decimal (n : Z) : string := NilZero.string_of_int (Z.to_int n).

Definition isVZDisplay (display : string) : bool :=
  String.eqb display "vz" || String.eqb display "default".

(** [func populateGUIInfo(inst *limatype.Instance)].  The instance is
    returned with its [GUI] field set.  [createDriver] stands for
    [driverutil.CreateConfiguredDriver(inst, inst.SSHLocalPort)] followed
    by [Info().Features.CanRunGUI]: the capability, or the error of the
    creation. *)
Definition populateGUIInfo
  (createDriver : Instance -> result bool) (inst : Instance) : Instance :=
  match Config inst with
  | None => inst
  | Some cfg =>
      match Display (video cfg) with
      | None => inst
      | Some display =>
          let enabled := negb (String.eqb display "none") in
          let canRunGUI :=
            if String.eqb (Status inst) StatusRunning
               || String.eqb (Status inst) StatusStopped
            then match createDriver inst with
                 | Ok can => can
                 | Err _ => false
                 end
            else false in
          let resolution :=
            match Width (VZ (video cfg)), Height (VZ (video cfg)) with
            | Some w, Some h => decimal w ++ "x" ++ decimal h
            | _, _ => if isVZDisplay display then "1920x1200" else ""
            end in
          let clipboardShared :=
            match DisableClipboard (VZ (video cfg)) with
            | Some disable => negb disable
            | None => enabled && isVZDisplay display
            end in
          let audioEnabled :=
            match Device (audio cfg) with
            | Some device => negb (String.eqb device "none")
            | None => false
            end in
          mkInstance (Name inst) (Config inst) (Status inst) (VMType inst)
            (Some (GUIInfo.mk display enabled canRunGUI resolution
                     clipboardShared audioEnabled))
      end
  end.

End store.

(** ** Package vz: the clipboard agent port of the VZ driver *)

Module vz.

Import limatype.

(** A console port as the driver configures it: its name and whether its
    agent attachment shares the clipboard. *)
Record ConsolePort : Type := mkConsolePort {
  portName : string;
  sharesClipboard : bool
}.

(** A console device: its ports by index. *)
Record ConsoleDevice : Type := mkConsoleDevice {
  ports : list (nat * ConsolePort)
}.

(** What the code touches of the machine configuration. *)
Record VirtualMachineConfiguration : Type := mkVMConfig {
  consoleDevices : list ConsoleDevice
}.

(** The calls into the virtualization binding that can fail, each with
    its outcome: the agent port name, and the error of creating the agent
    attachment, the console device and the port configuration. *)
Record Binding : Type := mkBinding {
  SpiceAgentPortAttachmentName : result string;
  NewSpiceAgentPortAttachment : error;
  NewVirtioConsoleDeviceConfiguration : error;
  NewVirtioConsolePortConfiguration : error
}.

(** [func attachSpiceAgent(inst, vmConfig) error], on the configuration of
    the instance; the machine configuration is returned with the error. *)
Definition attachSpiceAgent
  (binding : Binding) (cfg : LimaYAML) (vmConfig : VirtualMachineConfiguration)
  : VirtualMachineConfiguration * error :=
  if match Display (video cfg) with
     | None => true
     | Some display => String.eqb display "none"
     end
  then (vmConfig, None)
  else
    let enableClipboard :=
      match DisableClipboard (VZ (video cfg)) with
      | Some disable => negb disable
      | None => true
      end in
    if negb enableClipboard then (vmConfig, None)
    else
      match SpiceAgentPortAttachmentName binding with
      | Err _ => (vmConfig, None)
      | Ok name =>
          match NewSpiceAgentPortAttachment binding with
          | Some _ => (vmConfig, None)
          | None =>
              (* spiceAgent.SetSharesClipboard(true) *)
              let spiceAgent := true in
              match NewVirtioConsoleDeviceConfiguration binding with
              | Some _ => (vmConfig, None)
              | None =>
                  match NewVirtioConsolePortConfiguration binding with
                  | Some _ => (vmConfig, None)
                  | None =>
                      let portConfig := mkConsolePort name spiceAgent in
                      let consoleDevice := mkConsoleDevice [(0, portConfig)] in
                      (mkVMConfig [consoleDevice], None)
                  end
              end
          end
      end.

End vz.

(** ** Package main: the show-gui command *)

Module limactl.

Import limatype.

(** The outcome of [store.Inspect]: the instance, an error that is
    [os.ErrNotExist], or another error. *)
Inductive Inspected : Type :=
| Found (inst : Instance)
| NotExist
| InspectFailed (e : string).

(** The errors of [showGUIAction], each standing for the text the source
    formats from the same arguments. *)
Inductive ShowGUIError : Type :=
| InstanceDoesNotExist (instName : string)
| InspectError (e : string)
| InstanceNotRunning (instName status : string)
| GUINotEnabled (instName displayType : string)
| GUINotSupported (instName vmType display : string)
| VZCannotReopen (instName : string)
| DriverNotCreated (instName e : string)
| LaunchFailed (e : string).

(** [func showGUIAction(cmd, args) error] for [args[0] = instName].
    [inspected] is what [store.Inspect] returns, [createDriver] the error
    of [driverutil.CreateConfiguredDriver] and [runGUI] the error of
    [configuredDriver.RunGUI()], should they be called.  The result is the
    error and whether [RunGUI] was called. *)
Definition showGUIAction
  (instName : string) (inspected : Inspected)
  (createDriver : error) (runGUI : error)
  : option ShowGUIError * bool :=
  match inspected with
  | NotExist => (Some (InstanceDoesNotExist instName), false)
  | InspectFailed e => (Some (InspectError e), false)
  | Found inst =>
      if negb (String.eqb (Status inst) "Running") then
        (Some (InstanceNotRunning instName (Status inst)), false)
      else
        match GUI inst with
        | None => (Some (GUINotEnabled instName "none"), false)
        | Some gui =>
            if negb (GUIInfo.Enabled gui) then
              (Some (GUINotEnabled instName (GUIInfo.Display gui)), false)
            else if negb (GUIInfo.CanRunGUI gui) then
              (Some (GUINotSupported instName (VMType inst)
                       (GUIInfo.Display gui)), false)
            else if String.eqb (VMType inst) "vz" then
              (Some (VZCannotReopen instName), false)
            else
              match createDriver with
              | Some e => (Some (DriverNotCreated instName e), false)
              | None =>
                  match runGUI with
                  | Some e => (Some (LaunchFailed e), true)
                  | None => (None, true)
                  end
              end
        end
  end.

End limactl.


(** ** Package gui (guest side): the GUI report of the guest agent *)

Module strconv.

Definition digit (c : ascii) : option Z :=
  let n := nat_of_ascii c in
  if Nat.leb 48 n && Nat.leb n 57 then Some (Z.of_nat (n - 48)) else None.

(** The value of a run of decimal digits, read after [acc]. *)
Fixpoint digits (acc : Z) (s : string) : option Z :=
  match s with
  | EmptyString => Some acc
  | String c s' =>
      match digit c with
      | Some d => digits (acc * 10 + d)%Z s'
      | None => None
      end
  end.

(** [strconv.ParseInt(s, 10, 64)]: an optional sign and at least one
    decimal digit, the value within the 64-bit range; [None] is any of its
    errors. *)
Definition ParseInt (s : string) : option Z :=
  match s with
  | EmptyString => None
  | String c rest =>
      let negative := Ascii.eqb c "-"%char in
      let body :=
        if Ascii.eqb c "+"%char || Ascii.eqb c "-"%char then rest else s in
      match body with
      | EmptyString => None
      | _ =>
          match digits 0%Z body with
          | None => None
          | Some n =>
              let v := if negative then (- n)%Z else n in
              if Z.leb (- 2 ^ 63)%Z v && Z.leb v (2 ^ 63 - 1)%Z
              then Some v else None
          end
      end
  end.

End strconv.

Module api.

(** What the code sets of [api.SpiceAgentInfo]. *)
Record SpiceAgentInfo : Type := mkSpiceAgentInfo {
  AgentInstalled : bool;
  AgentRunning : bool;
  VportExists : bool;
  ClipboardReady : bool;
  ErrorMessage : string
}.

(** What the code sets of [api.GUIInfo]. *)
Record GUIInfo : Type := mkGUIInfo {
  DisplayServer : string;
  SessionActive : bool;
  Displays : list string;
  Resolution : string;
  IdleTimeMs : Z;
  Spice : SpiceAgentInfo
}.

End api.

Module gui.

(** The process environment, as [os.Getenv] reads it. *)
Definition Env : Type := string -> string.

Definition lineFeed : ascii := ascii_of_nat 10.

Definition nonEmpty (s : string) : bool := negb (String.eqb s "").

(** [func detectX11() bool]. *)
Definition detectX11 (env : Env) : M bool :=
  st <- call (Stat "/tmp/.X11-unix") ;;
  if ok st then ret true
  else if nonEmpty (env "DISPLAY") then ret true
  else ret false.

(** [func detectWayland() bool]. *)
Definition detectWayland (env : Env) : bool :=
  if nonEmpty (env "WAYLAND_DISPLAY") then true
  else if String.eqb (env "XDG_SESSION_TYPE") "wayland" then true
  else false.

(** [func getX11Displays() []string]. *)
Definition getX11Displays (env : Env) : M (list string) :=
  if nonEmpty (env "DISPLAY") then ret [env "DISPLAY"]
  else
    entries <- call (ReadDir "/tmp/.X11-unix") ;;
    if negb (ok entries) then ret []
    else
      ret (flat_map
             (fun name =>
                if strings.HasPrefix name "X"
                then [":" ++ strings.TrimPrefix name "X"] else [])
             (names entries)).

(** [func getWaylandDisplays() []string]. *)
Definition getWaylandDisplays (env : Env) : list string :=
  if nonEmpty (env "WAYLAND_DISPLAY") then [env "WAYLAND_DISPLAY"] else [].

(** The loop over the lines of [tryXrandr]: the first field of the first
    line that holds a star and whose first field holds an [x]. *)
Fixpoint xrandrCurrent (lines : list string) : string :=
  match lines with
  | [] => ""
  | line :: rest =>
      if strings.Contains line "*" then
        match strings.Fields line with
        | field :: _ =>
            if strings.Contains field "x" then field else xrandrCurrent rest
        | [] => xrandrCurrent rest
        end
      else xrandrCurrent rest
  end.

(** [func tryXrandr() string].  The [DISPLAY] entry added to the command
    environment repeats the one the process has. *)
Definition tryXrandr : M string :=
  res <- call (Run (Some 2) "xrandr" []) ;;
  if negb (ok res) then ret ""
  else ret (xrandrCurrent (strings.Split (out res) lineFeed)).

(** The loop over the lines of [tryXdpyinfo]. *)
Fixpoint xdpyinfoDimensions (lines : list string) : string :=
  match lines with
  | [] => ""
  | line :: rest =>
      if strings.Contains line "dimensions:" then
        match strings.Fields line with
        | _ :: field :: _ => field
        | _ => xdpyinfoDimensions rest
        end
      else xdpyinfoDimensions rest
  end.

(** [func tryXdpyinfo() string]. *)
Definition tryXdpyinfo : M string :=
  res <- call (Run (Some 2) "xdpyinfo" []) ;;
  if negb (ok res) then ret ""
  else ret (xdpyinfoDimensions (strings.Split (out res) lineFeed)).

(** [func getX11Resolution() string]. *)
Definition getX11Resolution : M string :=
  resolution <- tryXrandr ;;
  if nonEmpty resolution then ret resolution
  else
    resolution <- tryXdpyinfo ;;
    if nonEmpty resolution then ret resolution else ret "".

(** The loop over the fields of a line in [tryWlrRandr]: the text before
    the first [@] of the first field that holds an [x] and an [@]. *)
Fixpoint wlrMode (fields : list string) : option string :=
  match fields with
  | [] => None
  | field :: rest =>
      if strings.Contains field "x" && strings.Contains field "@" then
        match strings.Split field "@"%char with
        | part :: _ => Some part
        | [] => wlrMode rest
        end
      else wlrMode rest
  end.

(** The loop over the lines of [tryWlrRandr]. *)
Fixpoint wlrCurrent (lines : list string) : string :=
  match lines with
  | [] => ""
  | line :: rest =>
      if strings.Contains line "current" then
        match wlrMode (strings.Fields line) with
        | Some mode => mode
        | None => wlrCurrent rest
        end
      else wlrCurrent rest
  end.

(** [func tryWlrRandr() string]. *)
Definition tryWlrRandr : M string :=
  res <- call (Run (Some 2) "wlr-randr" []) ;;
  if negb (ok res) then ret ""
  else ret (wlrCurrent (strings.Split (out res) lineFeed)).

(** [func trySwaymsg() string]: the output is looked at and logged about,
    and the empty string is returned on every path. *)
Definition trySwaymsg : M string :=
  res <- call (Run (Some 2) "swaymsg" ["-t"; "get_outputs"]) ;;
  if negb (ok res) then ret "" else ret "".

(** [func getWaylandResolution() string]. *)
Definition getWaylandResolution : M string :=
  resolution <- tryWlrRandr ;;
  if nonEmpty resolution then ret resolution
  else
    resolution <- trySwaymsg ;;
    if nonEmpty resolution then ret resolution else ret "".

(** [func getResolution(displayServer string) string]. *)
Definition getResolution (displayServer : string) : M string :=
  if String.eqb displayServer "X11" then getX11Resolution
  else if String.eqb displayServer "Wayland" then getWaylandResolution
  else ret "".

(** [func getX11IdleTime() int64]. *)
Definition getX11IdleTime : M Z :=
  res <- call (Run (Some 1) "xprintidle" []) ;;
  match (if ok res then strconv.ParseInt (strings.TrimSpace (out res))
         else None) with
  | Some idleMs => ret idleMs
  | None =>
      res2 <- call (Run (Some 1) "xssstate" ["-i"]) ;;
      match (if ok res2 then strconv.ParseInt (strings.TrimSpace (out res2))
             else None) with
      | Some idleMs => ret idleMs
      | None => ret 0%Z
      end
  end.

(** [func getIdleTime(displayServer string) int64]. *)
Definition getIdleTime (displayServer : string) : M Z :=
  if String.eqb displayServer "X11" then getX11IdleTime
  else if String.eqb displayServer "Wayland" then ret 0%Z
  else ret 0%Z.

(** The display part of [DetectGUIInfo]: server, displays, session,
    resolution and idle time. *)
Definition detectDisplay (env : Env)
  : M (string * list string * bool * string * Z) :=
  serverAndDisplays <-
    (if detectWayland env then ret ("Wayland", getWaylandDisplays env)
     else
       x11 <- detectX11 env ;;
       if x11 then
         displays <- getX11Displays env ;;
         ret ("X11", displays)
       else ret ("none", [])) ;;
  let displayServer := fst serverAndDisplays in
  let displays := snd serverAndDisplays in
  let sessionActive := Nat.ltb 0 (List.length displays) in
  resolution <-
    (if sessionActive then getResolution displayServer else ret "") ;;
  idleTimeMs <-
    (if sessionActive then getIdleTime displayServer else ret 0%Z) ;;
  ret (displayServer, displays, sessionActive, resolution, idleTimeMs).

(** [func DetectGUIInfo(ctx context.Context) *api.GUIInfo]. *)
Definition DetectGUIInfo (env : Env) : M api.GUIInfo :=
  display <- detectDisplay env ;;
  let '(displayServer, displays, sessionActive, resolution, idleTimeMs) :=
    display in
  spiceStatus <- spiceservice.DetectSpiceStatus ;;
  let spice :=
    api.mkSpiceAgentInfo
      (spiceservice.AgentInstalled spiceStatus)
      (spiceservice.AgentRunning spiceStatus)
      (spiceservice.VPortExists spiceStatus)
      (spiceservice.ClipboardReady spiceStatus)
      (spiceservice.ErrorMessage spiceStatus) in
  spice <-
    (if spiceservice.VPortExists spiceStatus
        && negb (spiceservice.ClipboardReady spiceStatus)
     then
       ensured <- spiceservice.EnsureSpiceAgent ;;
       match ensured with
       | Some _ => ret spice
       | None =>
           spiceStatus <- spiceservice.DetectSpiceStatus ;;
           ret (api.mkSpiceAgentInfo
                  (spiceservice.AgentInstalled spiceStatus)
                  (spiceservice.AgentRunning spiceStatus)
                  (api.VportExists spice)
                  (spiceservice.ClipboardReady spiceStatus)
                  (spiceservice.ErrorMessage spiceStatus))
       end
     else ret spice) ;;
  ret (api.mkGUIInfo displayServer sessionActive displays resolution
         idleTimeMs spice).

End gui.


(** ** Vocabulary of the statements *)

(** No repair action among [added]. *)
Definition probesOnly (added : list Action) : Prop :=
  Forall (fun a => spiceservice.isRepair a = false) added.

(** A computation that, whatever the environment, adds probes only. *)
Definition probing {A : Type} (m : M A) : Prop :=
  forall o tr, exists added,
    snd (m o tr) = (tr ++ added)%list /\ probesOnly added.

(** [earlier a b s]: where [s] mentions both [a] and [b], the first mention
    of [a] comes before the first mention of [b]. *)
Definition earlier (a b s : string) : bool :=
  match strings.Index s a, strings.Index s b with
  | Some i, Some j => Nat.ltb i j
  | _, _ => true
  end.

(** [skipped o pms t t']: starting with the trace [t], every manager of
    [pms] was probed in turn and given up, ending with the trace [t']:
    either its probe did not resolve, or its probe resolved and its install
    command was run and failed. *)
Inductive skipped (o : Oracle)
  : list spiceservice.PackageManager -> list Action -> list Action -> Prop :=
| skipped_none : forall t, skipped o [] t t
| skipped_unavailable : forall pm rest t t',
    ok (o t (LookPath (spiceservice.cmd pm))) = false ->
    skipped o rest (t ++ [LookPath (spiceservice.cmd pm)])%list t' ->
    skipped o (pm :: rest) t t'
| skipped_failed : forall pm rest t t',
    ok (o t (LookPath (spiceservice.cmd pm))) = true ->
    ok (o (t ++ [LookPath (spiceservice.cmd pm)])%list
          (spiceservice.installCommand pm)) = false ->
    skipped o rest
      (t ++ [LookPath (spiceservice.cmd pm); spiceservice.installCommand pm])%list
      t' ->
    skipped o (pm :: rest) t t'.

(** [unresolved o t cs]: looked up one after the other from the trace [t]
    on, none of the executables [cs] resolves. *)
Fixpoint unresolved (o : Oracle) (t : list Action) (cs : list string) : Prop :=
  match cs with
  | [] => True
  | c :: rest =>
      ok (o t (LookPath c)) = false /\
      unresolved o (t ++ [LookPath c])%list rest
  end.

(** The text of one option, [key=value]. *)
Definition optionText (kv : string * string) : string :=
  fst kv ++ "=" ++ snd kv.

(** The display string with the protocol token [spice] followed by the
    given [key=value] options, comma-separated. *)
Fixpoint options (kvs : list (string * string)) : string :=
  match kvs with
  | [] => ""
  | kv :: rest => "," ++ optionText kv ++ options rest
  end.

Definition displayString (kvs : list (string * string)) : string :=
  "spice" ++ options kvs.

Fixpoint hasByte (c : ascii) (s : string) : bool :=
  match s with
  | EmptyString => false
  | String c' s' => Ascii.eqb c' c || hasByte c s'
  end.

(** A key or value as it stands in an option list: no comma inside and no
    white space around it; a key holds no equals sign either. *)
Definition plainValue (v : string) : bool :=
  negb (hasByte spiceclient.comma v) && String.eqb (strings.TrimSpace v) v.

Definition plainKey (k : string) : bool :=
  plainValue k && negb (hasByte spiceclient.equals k).

Definition plainOption (kv : string * string) : bool :=
  plainKey (fst kv) && plainValue (snd kv).

(** The value the option list gives to [key]: that of its last occurrence. *)
Fixpoint given (key : string) (kvs : list (string * string)) : option string :=
  match kvs with
  | [] => None
  | (k, v) :: rest =>
      match given key rest with
      | Some v' => Some v'
      | None => if String.eqb k key then Some v else None
      end
  end.

(** ** Guests and hosts to run the code against *)

Definition answer (text : string) (entries : list string) : Response :=
  mkResponse None text entries.

Definition failure (msg : string) : Response := mkResponse (Some msg) "" [].

(** A guest in a fixed condition: [/dev] holds a vport node iff [vport];
    the agent binary is on the search path iff [installed]; the service
    manager reports the agent active iff [running]; the process table shows
    the agent iff [process]; nothing else is there. *)
Definition guest (vport installed running process : bool) : Oracle :=
  fun _ a =>
    match a with
    | ReadDir dir =>
        if String.eqb dir "/dev"
        then answer "" (if vport then ["null"; "vport1p1"] else ["null"])
        else failure "no such file or directory"
    | Stat _ => failure "no such file or directory"
    | LookPath file =>
        if String.eqb file "spice-vdagentd" && installed
        then answer "/usr/sbin/spice-vdagentd" []
        else failure "executable file not found in $PATH"
    | Run _ name (sub :: _) =>
        if String.eqb name "systemctl" && String.eqb sub "is-active" && running
        then answer "active" []
        else if String.eqb name "pgrep" && process then answer "" []
        else failure "exit status 1"
    | Run _ _ [] => failure "exit status 1"
    | Sleep _ => answer "" []
    end.

(** A guest with the transport but without the agent, on which both
    [apt-get] and [dnf] are found; the [apt-get] install fails, every other
    command succeeds and the service reports active. *)
Definition guestAptBroken : Oracle :=
  fun _ a =>
    match a with
    | ReadDir _ => answer "" ["vport1p1"]
    | Stat _ => answer "" []
    | LookPath file =>
        if String.eqb file "apt-get" then answer "/usr/bin/apt-get" []
        else if String.eqb file "dnf" then answer "/usr/bin/dnf" []
        else failure "executable file not found in $PATH"
    | Run _ name _ =>
        if String.eqb name "systemctl" then answer "active" []
        else if String.eqb name "dnf" then answer "Complete!" []
        else failure "exit status 100"
    | Sleep _ => answer "" []
    end.

(** A guest with the transport but without the agent and without any
    working package manager: [apt-get] is found and fails. *)
Definition guestNoInstall : Oracle :=
  fun _ a =>
    match a with
    | ReadDir _ => answer "" ["vport1p1"]
    | Stat _ => answer "" []
    | LookPath file =>
        if String.eqb file "apt-get" then answer "/usr/bin/apt-get" []
        else failure "executable file not found in $PATH"
    | Run _ _ _ => failure "exit status 100"
    | Sleep _ => answer "" []
    end.

(** A host on which only [spicy] is installed. *)
Definition hostWithSpicy : Oracle :=
  fun _ a =>
    match a with
    | LookPath file =>
        if String.eqb file "spicy" then answer "/usr/bin/spicy" []
        else failure "executable file not found in $PATH"
    | _ => failure "not available"
    end.


(** ** Further vocabulary *)

(** A computation that, whatever the environment, adds only actions that
    [allowed] accepts. *)
Definition addsOnly (allowed : Action -> bool) {A : Type} (m : M A) : Prop :=
  forall o tr, exists added,
    snd (m o tr) = (tr ++ added)%list /\ forallb allowed added = true.

(** The probes of the detector: a directory listing, a stat, a search-path
    lookup, a subprocess with a deadline of two seconds of its own, or
    [pgrep], which runs under the caller's context alone. *)
Definition detectorProbe (a : Action) : bool :=
  match a with
  | ReadDir _ | Stat _ | LookPath _ => true
  | Run (Some 2) _ _ => true
  | Run None name _ => String.eqb name "pgrep"
  | _ => false
  end.

Definition notInstall (a : Action) : bool := negb (spiceservice.isInstall a).

Definition notEnableOrStart (a : Action) : bool :=
  negb (spiceservice.isEnableOrStart a).

(** A guest on which [/dev] cannot be listed while the sysfs directory of
    the virtio ports is there and populated. *)
Definition guestNoDev : Oracle :=
  fun _ a =>
    match a with
    | ReadDir dir =>
        if String.eqb dir "/dev" then failure "permission denied"
        else answer "" ["vport1p1"]
    | Stat _ => answer "" []
    | _ => failure "not available"
    end.

(** The oracle [o], except that the action taken after exactly [n] earlier
    ones fails. *)
Definition failingAt (n : nat) (o : Oracle) : Oracle :=
  fun t a => if Nat.eqb (List.length t) n then failure "exit status 1" else o t a.


(** The text after the protocol token: each token preceded by a comma. *)
Fixpoint tokens (ts : list string) : string :=
  match ts with
  | [] => ""
  | t :: rest => "," ++ t ++ tokens rest
  end.

Definition commaFree (t : string) : bool := negb (hasByte spiceclient.comma t).

(** The keys that [GetConnectionInfo] acts on. *)
Definition recognizedKey (k : string) : bool :=
  String.eqb k "port" || String.eqb k "addr" || String.eqb k "password".

(** A token without equals sign, or whose key is none of the recognized
    ones. *)
Definition inert (t : string) : bool :=
  match strings.Cut t spiceclient.equals with
  | None => true
  | Some (k, _) => negb (recognizedKey (strings.TrimSpace k))
  end.

Fixpoint allSpace (s : string) : bool :=
  match s with
  | EmptyString => true
  | String c s' => strings.isSpace c && allSpace s'
  end.

(** Text made of bytes below 128, on which the byte-wise white space and
    letter case of this development are those of Go. *)
Fixpoint isASCII (s : string) : bool :=
  match s with
  | EmptyString => true
  | String c s' => Nat.ltb (nat_of_ascii c) 128 && isASCII s'
  end.

(** A piece of text with white space before and after it. *)
Definition padded (x : string * string * string) : string :=
  let '(l, s, r) := x in l ++ s ++ r.

Definition core (x : string * string * string) : string :=
  let '(_, s, _) := x in s.

Definition pads (x : string * string * string) : bool :=
  let '(l, _, r) := x in allSpace l && allSpace r.

Definition paddedOption
  (kv : (string * string * string) * (string * string * string)) : string :=
  padded (fst kv) ++ "=" ++ padded (snd kv).

Definition coreOption
  (kv : (string * string * string) * (string * string * string))
  : string * string :=
  (core (fst kv), core (snd kv)).

Definition paddedPlain
  (kv : (string * string * string) * (string * string * string)) : bool :=
  pads (fst kv) && pads (snd kv) && plainOption (coreOption kv).


(** A viewer path that [buildViewerArgs] takes for a viewer with a URI
    argument. *)
Definition uriViewer (viewer : string) : bool :=
  strings.Contains (strings.ToLower viewer) "remote-viewer"
  || strings.Contains (strings.ToLower viewer) "virt-viewer".

(** A host on which every lookup resolves to a path under [/usr/bin] and
    every process starts. *)
Definition hostWithAll : Oracle :=
  fun _ a =>
    match a with
    | LookPath file => answer ("/usr/bin/" ++ file) []
    | _ => answer "" []
    end.


(** The machine configuration that holds the clipboard agent alone: one
    console device whose port 0 is the agent port, sharing the
    clipboard. *)
Definition agentConfiguration (name : string) : vz.VirtualMachineConfiguration :=
  vz.mkVMConfig [vz.mkConsoleDevice [(0, vz.mkConsolePort name true)]].

(** A binding all of whose calls succeed. *)
Definition bindingWorks (binding : vz.Binding) : bool :=
  match vz.SpiceAgentPortAttachmentName binding with
  | Ok _ => true
  | Err _ => false
  end
  && isNil (vz.NewSpiceAgentPortAttachment binding)
  && isNil (vz.NewVirtioConsoleDeviceConfiguration binding)
  && isNil (vz.NewVirtioConsolePortConfiguration binding).

Definition goodBinding : vz.Binding :=
  vz.mkBinding (Ok "com.redhat.spice.0") None None None.

(** A running QEMU instance configured with a SPICE display. *)
Definition qemuInstance : limatype.Instance :=
  limatype.mkInstance "desk"
    (Some (limatype.mkLimaYAML
             (limatype.mkVideo (Some "spice")
                (limatype.mkVZOptions None None None))
             (limatype.mkAudio None)))
    "Running" "qemu" None.

(** A running VZ instance with the native display. *)
Definition vzInstance : limatype.Instance :=
  limatype.mkInstance "mac"
    (Some (limatype.mkLimaYAML
             (limatype.mkVideo (Some "vz")
                (limatype.mkVZOptions (Some 1440%Z) (Some 900%Z) None))
             (limatype.mkAudio (Some "vz"))))
    "Running" "vz" None.


Definition notRepair (a : Action) : bool := negb (spiceservice.isRepair a).

(** The clipboard part of a GUI report, as copied from a detected
    status. *)
Definition reportOf (st : spiceservice.SpiceStatus) : api.SpiceAgentInfo :=
  api.mkSpiceAgentInfo
    (spiceservice.AgentInstalled st) (spiceservice.AgentRunning st)
    (spiceservice.VPortExists st) (spiceservice.ClipboardReady st)
    (spiceservice.ErrorMessage st).

(** An environment without display variables, one of an X11 session, and
    one that names the session type only. *)
Definition envEmpty : gui.Env := fun _ => "".

Definition envX11 : gui.Env :=
  fun name => if String.eqb name "DISPLAY" then ":0" else "".

Definition envWaylandType : gui.Env :=
  fun name =>
    if String.eqb name "XDG_SESSION_TYPE" then "wayland"
    else if String.eqb name "DISPLAY" then ":0"
    else "".

Definition startedBefore (t : list Action) : bool :=
  existsb spiceservice.isEnableOrStart t.

(** A guest with the agent installed and stopped, whose service starts
    when asked to, and whose vport node is gone once the service was
    started. *)
Definition guestVanishingPort : Oracle :=
  fun t a =>
    match a with
    | ReadDir _ =>
        if startedBefore t then answer "" ["null"] else answer "" ["vport1p1"]
    | Stat _ => failure "no such file or directory"
    | LookPath file =>
        if String.eqb file "spice-vdagentd"
        then answer "/usr/sbin/spice-vdagentd" []
        else failure "executable file not found in $PATH"
    | Run _ name (sub :: _) =>
        if String.eqb name "systemctl" then
          if String.eqb sub "is-active" then
            if startedBefore t then answer "active" []
            else failure "exit status 3"
          else answer "" []
        else failure "exit status 1"
    | Run _ _ [] => failure "exit status 1"
    | Sleep _ => answer "" []
    end.


Fixpoint sameArgs (a b : list string) : bool :=
  match a, b with
  | [], [] => true
  | x :: a', y :: b' => String.eqb x y && sameArgs a' b'
  | _, _ => false
  end.

(** Everything the supervisor may do: the probes of the detector, a
    search-path lookup, one of the five install commands of the table,
    the enable and the start request for the agent's service, and the
    pause of half a second. *)
Definition supervisorAction (a : Action) : bool :=
  detectorProbe a
  || existsb
       (fun pm =>
          match a with
          | Run (Some 60) name args =>
              String.eqb name (spiceservice.cmd pm)
              && sameArgs args
                   (spiceservice.args pm ++ [spiceservice.pkgName pm])%list
          | _ => false
          end)
       spiceservice.packageManagers
  || match a with
     | Run (Some 10) name args =>
         String.eqb name "systemctl"
         && (sameArgs args ["enable"; "spice-vdagentd"]
             || sameArgs args ["start"; "spice-vdagentd"])
     | Sleep ms => Nat.eqb ms 500
     | _ => false
     end.



(** An X server that answers [xrandr] with two modes, the current one
    starred. *)
Definition guestXrandr : Oracle :=
  fun _ a =>
    match a with
    | Run _ name _ =>
        if String.eqb name "xrandr"
        then answer ("   1920x1080     60.00*+" ++ String gui.lineFeed
                       "   1280x720      60.00") []
        else failure "exit status 1"
    | _ => failure "not available"
    end.


(** * Properties *)

(** ** Probes leave the guest alone *)

Lemma probing_ret {A : Type} (a : A) : probing (ret a).
Proof.
  intros o tr. exists []. split; [ simpl; now rewrite app_nil_r | constructor ].
Qed.

Lemma probing_call (a : Action) :
  spiceservice.isRepair a = false -> probing (call a).
Proof.
  intros Ha o tr. exists [a]. split; [ reflexivity | ].
  constructor; [ exact Ha | constructor ].
Qed.

Lemma probing_bind {A B : Type} (m : M A) (k : A -> M B) :
  probing m -> (forall a, probing (k a)) -> probing (bind m k).
Proof.
  intros Hm Hk o tr. unfold bind.
  destruct (Hm o tr) as [l1 [E1 P1]].
  destruct (m o tr) as [a t1]. simpl in E1. subst t1.
  destruct (Hk a o (tr ++ l1)%list) as [l2 [E2 P2]].
  exists (l1 ++ l2)%list. split.
  - rewrite E2. now rewrite app_assoc.
  - apply Forall_app. now split.
Qed.

Ltac probing_steps :=
  repeat first
    [ apply probing_ret
    | apply probing_call; reflexivity
    | apply probing_bind; [ | intro ]
    | match goal with
      | |- probing (if ?b then _ else _) => destruct b
      end ].

Lemma checkVirtioPort_probing : probing spiceservice.checkVirtioPort.
Proof. unfold spiceservice.checkVirtioPort. probing_steps. Qed.

Lemma checkSpiceInstalled_probing : probing spiceservice.checkSpiceInstalled.
Proof. unfold spiceservice.checkSpiceInstalled. probing_steps. Qed.

Lemma checkSpiceRunning_probing : probing spiceservice.checkSpiceRunning.
Proof. unfold spiceservice.checkSpiceRunning. probing_steps. Qed.

Lemma DetectSpiceStatus_probing : probing spiceservice.DetectSpiceStatus.
Proof.
  unfold spiceservice.DetectSpiceStatus.
  apply probing_bind; [ apply checkVirtioPort_probing | intro vport ].
  apply probing_bind; [ apply checkSpiceInstalled_probing | intro installed ].
  apply probing_bind.
  - destruct installed; [ apply checkSpiceRunning_probing | apply probing_ret ].
  - intro running. probing_steps.
Qed.

(** ** The detector *)

Import spiceservice.

(** The fields of a detected status, in terms of the three checks run one
    after the other. *)
Lemma DetectSpiceStatus_fields (o : Oracle) (tr : list Action) :
  let st := fst (DetectSpiceStatus o tr) in
  let vport := checkVirtioPort o tr in
  let installed := checkSpiceInstalled o (snd vport) in
  let running := checkSpiceRunning o (snd installed) in
  VPortExists st = fst vport /\
  AgentInstalled st = fst installed /\
  AgentRunning st = fst installed && fst running /\
  ClipboardReady st = VPortExists st && AgentInstalled st && AgentRunning st /\
  ErrorMessage st = (if ClipboardReady st then "" else buildErrorMessage st) /\
  snd (DetectSpiceStatus o tr)
  = (if fst installed then snd running else snd installed).
Proof.
  unfold DetectSpiceStatus, bind.
  destruct (checkVirtioPort o tr) as [v t1]. simpl.
  destruct (checkSpiceInstalled o t1) as [i t2]. simpl.
  destruct i.
  - destruct (checkSpiceRunning o t2) as [r t3].
    destruct v, r; simpl; repeat split; reflexivity.
  - destruct v; simpl; repeat split; reflexivity.
Qed.

(** The running field is set under the installed field only. *)
Lemma detected_running_under_installed (o : Oracle) (tr : list Action) :
  let st := fst (DetectSpiceStatus o tr) in
  AgentRunning st = AgentInstalled st && AgentRunning st.
Proof.
  cbv zeta.
  destruct (DetectSpiceStatus_fields o tr) as (_ & Hi & Hr & _).
  rewrite Hr, Hi.
  now destruct (fst (checkSpiceInstalled o (snd (checkVirtioPort o tr)))).
Qed.

(** C4: for every outcome of the three sub-checks, the [ClipboardReady]
    field of the status that [DetectSpiceStatus] returns is the conjunction
    of the three: as a relation between the fields of the status, as a
    relation to the outcomes of the checks run in sequence, and on a guest
    for each of the eight combinations. *)
Theorem DetectSpiceStatus_ready_conjunction :
  (forall o tr,
      let st := fst (DetectSpiceStatus o tr) in
      ClipboardReady st
      = VPortExists st && AgentInstalled st && AgentRunning st) /\
  (forall o tr,
      let vport := checkVirtioPort o tr in
      let installed := checkSpiceInstalled o (snd vport) in
      let running := checkSpiceRunning o (snd installed) in
      ClipboardReady (fst (DetectSpiceStatus o tr))
      = fst vport && fst installed && fst running) /\
  (forall v i r : bool,
      exists o,
        let vport := checkVirtioPort o [] in
        let installed := checkSpiceInstalled o (snd vport) in
        let running := checkSpiceRunning o (snd installed) in
        fst vport = v /\ fst installed = i /\ fst running = r /\
        ClipboardReady (fst (DetectSpiceStatus o [])) = v && i && r).
Proof.
  split; [ | split ].
  - intros o tr. apply (DetectSpiceStatus_fields o tr).
  - intros o tr. cbv zeta.
    destruct (DetectSpiceStatus_fields o tr) as (Hv & Hi & Hr & Hc & _).
    rewrite Hc, Hv, Hi, Hr.
    destruct (fst (checkVirtioPort o tr)),
      (fst (checkSpiceInstalled o (snd (checkVirtioPort o tr))));
      reflexivity.
  - intros v i r. exists (guest v i r false).
    destruct v, i, r; vm_compute; repeat split; reflexivity.
Qed.

(** C10: a detected status never reports the agent running without
    reporting it installed; when the installed check fails the running
    check is not issued at all, the detector stopping after the probes of
    the installed check. *)
Theorem DetectSpiceStatus_running_implies_installed
  (o : Oracle) (tr : list Action) :
  let st := fst (DetectSpiceStatus o tr) in
  (AgentRunning st = true -> AgentInstalled st = true) /\
  (AgentInstalled st = false ->
   AgentRunning st = false /\
   snd (DetectSpiceStatus o tr)
   = snd (checkSpiceInstalled o (snd (checkVirtioPort o tr)))).
Proof.
  cbv zeta.
  destruct (DetectSpiceStatus_fields o tr) as (_ & Hi & Hr & _ & _ & Ht).
  split.
  - intros Hrun. rewrite Hr in Hrun. rewrite Hi.
    now apply andb_true_iff in Hrun.
  - intros Hinst. rewrite Hi in Hinst. rewrite Hr, Ht, Hinst.
    split; reflexivity.
Qed.

Lemma DetectSpiceStatus_running_implies_installed_witness :
  AgentRunning (fst (DetectSpiceStatus (guest true true false true) []))
  = true /\
  AgentInstalled (fst (DetectSpiceStatus (guest true true false true) []))
  = true.
Proof.
  split; [ reflexivity | ].
  apply (DetectSpiceStatus_running_implies_installed
           (guest true true false true) []).
  reflexivity.
Defined.

(** ** The reason text *)

(** C2, as the code has it: the error message of a detected status is empty
    exactly when the status is ready; it names the missing transport
    exactly when the transport is absent, the missing package exactly when
    the agent is not installed, and the stopped service exactly when the
    agent is installed and not running, the transport first; with the
    transport present and the agent neither installed nor running, the
    message is the one about the package alone. *)
Theorem DetectSpiceStatus_reason (o : Oracle) (tr : list Action) :
  let st := fst (DetectSpiceStatus o tr) in
  let msg := ErrorMessage st in
  (msg = "" <-> ClipboardReady st = true) /\
  strings.Contains msg msgNoPort = negb (VPortExists st) /\
  strings.Contains msg msgNotInstalled = negb (AgentInstalled st) /\
  strings.Contains msg msgNotRunning
  = AgentInstalled st && negb (AgentRunning st) /\
  earlier msgNoPort msgNotInstalled msg = true /\
  earlier msgNoPort msgNotRunning msg = true /\
  (VPortExists st = true -> AgentInstalled st = false ->
   AgentRunning st = false /\
   msg = "SPICE clipboard not ready: spice-vdagent package not installed").
Proof.
  cbv zeta.
  destruct (DetectSpiceStatus_fields o tr) as (_ & _ & _ & Hc & Hm & _).
  pose proof (detected_running_under_installed o tr) as Hri.
  destruct (fst (DetectSpiceStatus o tr)) as [i r v c m].
  simpl in *. subst c.
  destruct v, i, r; try discriminate Hri;
    vm_compute in Hm; subst m;
    vm_compute; repeat split; intros; try discriminate; reflexivity.
Qed.

(** C2, the scenario as the claim words it, on a guest with the transport
    and without the agent: the status says not installed and not running,
    and the message mentions the package and not the service. *)
Lemma DetectSpiceStatus_reason_omits_running :
  let st := fst (DetectSpiceStatus (guest true false false false) []) in
  VPortExists st = true /\ AgentInstalled st = false /\
  AgentRunning st = false /\
  strings.Contains (ErrorMessage st) msgNotInstalled = true /\
  strings.Contains (ErrorMessage st) msgNotRunning = false.
Proof. vm_compute. repeat split; reflexivity. Qed.

(** ** The supervisor *)

Lemma EnsureSpiceAgent_unfold (o : Oracle) (tr : list Action) :
  let st := fst (DetectSpiceStatus o tr) in
  let tr0 := snd (DetectSpiceStatus o tr) in
  (ClipboardReady st = true -> EnsureSpiceAgent o tr = (None, tr0)) /\
  (VPortExists st = false -> EnsureSpiceAgent o tr = (Some errNoPort, tr0)).
Proof.
  cbv zeta.
  destruct (DetectSpiceStatus_fields o tr) as (_ & _ & _ & Hc & _).
  unfold EnsureSpiceAgent, bind.
  destruct (DetectSpiceStatus o tr) as [st tr0]. simpl in *.
  split; intros H.
  - now rewrite H.
  - rewrite Hc, H. simpl. reflexivity.
Qed.

(** C7: when the detector reports the transport absent, whatever it
    reports about the agent, [EnsureSpiceAgent] returns the transport
    error at once: it does nothing after the detector's probes, and no
    install, enable or start command is among what it did. *)
Theorem EnsureSpiceAgent_transport_absent (o : Oracle) (tr : list Action) :
  VPortExists (fst (DetectSpiceStatus o tr)) = false ->
  fst (EnsureSpiceAgent o tr) = Some errNoPort /\
  snd (EnsureSpiceAgent o tr) = snd (DetectSpiceStatus o tr) /\
  exists probes,
    snd (EnsureSpiceAgent o tr) = (tr ++ probes)%list /\ probesOnly probes.
Proof.
  intros H.
  destruct (EnsureSpiceAgent_unfold o tr) as [_ E]. rewrite (E H). simpl.
  repeat split. apply DetectSpiceStatus_probing.
Qed.

Lemma EnsureSpiceAgent_transport_absent_witness :
  fst (EnsureSpiceAgent (guest false true true true) []) = Some errNoPort /\
  snd (EnsureSpiceAgent (guest false true true true) [])
  = snd (DetectSpiceStatus (guest false true true true) []) /\
  exists probes,
    snd (EnsureSpiceAgent (guest false true true true) [])
    = ([] ++ probes)%list /\ probesOnly probes.
Proof.
  apply (EnsureSpiceAgent_transport_absent (guest false true true true) []).
  reflexivity.
Defined.

Lemma EnsureSpiceAgent_ready (o : Oracle) (tr : list Action) :
  ClipboardReady (fst (DetectSpiceStatus o tr)) = true ->
  fst (EnsureSpiceAgent o tr) = None /\
  exists probes,
    snd (EnsureSpiceAgent o tr) = (tr ++ probes)%list /\ probesOnly probes.
Proof.
  intros H.
  destruct (EnsureSpiceAgent_unfold o tr) as [E _]. rewrite (E H). simpl.
  split; [ reflexivity | apply DetectSpiceStatus_probing ].
Qed.

(** C8: when the detector reports ready, [EnsureSpiceAgent] succeeds
    having issued the detector's probes and nothing else, no install,
    enable or start command among them; called again while the detector
    still reports ready, it succeeds again, and the two calls together
    have added probes only. *)
Theorem EnsureSpiceAgent_idempotent (o : Oracle) (tr : list Action) :
  ClipboardReady (fst (DetectSpiceStatus o tr)) = true ->
  let first := EnsureSpiceAgent o tr in
  (fst first = None /\
   snd first = snd (DetectSpiceStatus o tr) /\
   exists probes, snd first = (tr ++ probes)%list /\ probesOnly probes) /\
  (ClipboardReady (fst (DetectSpiceStatus o (snd first))) = true ->
   let second := EnsureSpiceAgent o (snd first) in
   fst second = None /\
   exists probes, snd second = (tr ++ probes)%list /\ probesOnly probes).
Proof.
  intros H. cbv zeta.
  destruct (EnsureSpiceAgent_ready o tr H) as [R1 [p1 [T1 P1]]].
  split.
  - repeat split; [ exact R1 | | now exists p1 ].
    destruct (EnsureSpiceAgent_unfold o tr) as [E _]. now rewrite (E H).
  - intros H2.
    destruct (EnsureSpiceAgent_ready o _ H2) as [R2 [p2 [T2 P2]]].
    split; [ exact R2 | ].
    exists (p1 ++ p2)%list. split.
    + rewrite T2, T1. now rewrite app_assoc.
    + apply Forall_app. now split.
Qed.

Lemma EnsureSpiceAgent_idempotent_witness :
  let o := guest true true true false in
  let first := EnsureSpiceAgent o [] in
  (fst first = None /\
   snd first = snd (DetectSpiceStatus o []) /\
   exists probes, snd first = ([] ++ probes)%list /\ probesOnly probes) /\
  (ClipboardReady (fst (DetectSpiceStatus o (snd first))) = true ->
   let second := EnsureSpiceAgent o (snd first) in
   fst second = None /\
   exists probes, snd second = ([] ++ probes)%list /\ probesOnly probes).
Proof.
  apply (EnsureSpiceAgent_idempotent (guest true true true false) []).
  reflexivity.
Defined.

(** ** Installation *)

(** The walk over the table: success comes from the first manager whose
    probe resolves and whose install succeeds, every manager before it
    having been given up; the error comes after all were given up. *)
Lemma installWith_walk (o : Oracle) (pms : list PackageManager) :
  forall tr,
    match installWith pms o tr with
    | (None, tr') =>
        exists before pm after t,
          pms = (before ++ pm :: after)%list /\
          skipped o before tr t /\
          ok (o t (LookPath (cmd pm))) = true /\
          ok (o (t ++ [LookPath (cmd pm)])%list (installCommand pm)) = true /\
          tr' = (t ++ [LookPath (cmd pm); installCommand pm])%list
    | (Some msg, tr') => msg = errInstall /\ skipped o pms tr tr'
    end.
Proof.
  induction pms as [| pm rest IH]; intros tr.
  - simpl. split; [ reflexivity | constructor ].
  - simpl. unfold bind, call.
    destruct (ok (o tr (LookPath (cmd pm)))) eqn:Hprobe; simpl.
    + destruct (ok (o (tr ++ [LookPath (cmd pm)])%list (installCommand pm)))
        eqn:Hinst; simpl.
      * exists [], pm, rest, tr. repeat split; try assumption.
        -- constructor.
        -- now rewrite <- app_assoc.
      * specialize (IH ((tr ++ [LookPath (cmd pm)]) ++ [installCommand pm])%list).
        rewrite <- app_assoc in IH. simpl in IH.
        rewrite <- app_assoc. simpl.
        destruct (installWith rest o
                    (tr ++ [LookPath (cmd pm); installCommand pm])%list)
          as [[msg |] tr'].
        -- destruct IH as [E S]. split; [ exact E | ].
           now apply skipped_failed.
        -- destruct IH as (before & pm' & after & t & E & S & P & I & T).
           exists (pm :: before), pm', after, t. repeat split; try assumption.
           ++ simpl. now rewrite E.
           ++ now apply skipped_failed.
    + specialize (IH (tr ++ [LookPath (cmd pm)])%list).
      destruct (installWith rest o (tr ++ [LookPath (cmd pm)])%list)
        as [[msg |] tr'].
      * destruct IH as [E S]. split; [ exact E | ].
        now apply skipped_unavailable.
      * destruct IH as (before & pm' & after & t & E & S & P & I & T).
        exists (pm :: before), pm', after, t. repeat split; try assumption.
        -- simpl. now rewrite E.
        -- now apply skipped_unavailable.
Qed.

(** C1, as the code has it: when the detector finds the transport present
    and the agent not installed, [EnsureSpiceAgent] walks the package
    managers in table order; a manager whose probe does not resolve, or
    whose install command fails, is given up and the next one is tried.
    The first install that succeeds ends the walk, and the service is
    started next; when every manager was given up, the one generic install
    error is returned, wrapped, and nothing else is done. *)
Theorem EnsureSpiceAgent_install_walk (o : Oracle) (tr : list Action) :
  let st := fst (DetectSpiceStatus o tr) in
  let tr0 := snd (DetectSpiceStatus o tr) in
  VPortExists st = true ->
  AgentInstalled st = false ->
  match installSpiceAgent o tr0 with
  | (None, tr1) =>
      (exists before pm after t,
          packageManagers = (before ++ pm :: after)%list /\
          skipped o before tr0 t /\
          ok (o t (LookPath (cmd pm))) = true /\
          ok (o (t ++ [LookPath (cmd pm)])%list (installCommand pm)) = true /\
          tr1 = (t ++ [LookPath (cmd pm); installCommand pm])%list) /\
      EnsureSpiceAgent o tr
      = (match fst (startSpiceService o tr1) with
         | Some e => Some ("failed to start spice-vdagentd: " ++ e)
         | None => None
         end, snd (startSpiceService o tr1))
  | (Some msg, tr1) =>
      skipped o packageManagers tr0 tr1 /\
      EnsureSpiceAgent o tr
      = (Some ("failed to install spice-vdagent: " ++ errInstall), tr1)
  end.
Proof.
  cbv zeta. intros Hv Hi.
  destruct (DetectSpiceStatus_fields o tr) as (_ & _ & _ & Hc & _).
  pose proof (detected_running_under_installed o tr) as Hrun.
  cbv zeta in Hrun. rewrite Hi in Hrun. simpl in Hrun.
  pose proof (installWith_walk o packageManagers
                (snd (DetectSpiceStatus o tr))) as W.
  unfold EnsureSpiceAgent, bind.
  change (installWith packageManagers) with installSpiceAgent in W.
  destruct (DetectSpiceStatus o tr) as [st tr0]. cbn [fst snd] in *.
  rewrite Hc, Hv, Hi, Hrun. cbn [negb andb].
  destruct (installSpiceAgent o tr0) as [[msg |] tr1].
  - destruct W as [E S]. subst msg. split; [ exact S | reflexivity ].
  - split; [ exact W | ].
    destruct (startSpiceService o tr1) as [[e |] tr2]; reflexivity.
Qed.

Lemma EnsureSpiceAgent_install_walk_witness :
  skipped guestNoInstall packageManagers
    (snd (DetectSpiceStatus guestNoInstall []))
    (snd (installSpiceAgent guestNoInstall
            (snd (DetectSpiceStatus guestNoInstall [])))) /\
  fst (EnsureSpiceAgent guestNoInstall [])
  = Some ("failed to install spice-vdagent: " ++ errInstall).
Proof.
  pose proof (EnsureSpiceAgent_install_walk guestNoInstall []
                eq_refl eq_refl) as W.
  vm_compute in W. destruct W as [S E].
  split; [ exact S | reflexivity ].
Defined.

(** C1, against the claim as worded: on a guest where [apt-get] is the
    first manager whose probe resolves and its install fails,
    [EnsureSpiceAgent] does not return that failure; it goes on to [dnf],
    installs with it, starts the service and returns success. *)
Lemma EnsureSpiceAgent_tries_next_manager :
  let o := guestAptBroken in
  let st := fst (DetectSpiceStatus o []) in
  let tr0 := snd (DetectSpiceStatus o []) in
  let apt := mkPM "apt-get" ["install"; "-y"] "spice-vdagent" in
  VPortExists st = true /\ AgentInstalled st = false /\
  hd_error packageManagers = Some apt /\
  ok (o tr0 (LookPath (cmd apt))) = true /\
  ok (o (tr0 ++ [LookPath (cmd apt)])%list (installCommand apt)) = false /\
  EnsureSpiceAgent o []
  = (None,
     [ ReadDir "/dev"; LookPath "spice-vdagentd";
       Run (Some 2) "dpkg" ["-l"; "spice-vdagent"];
       Run (Some 2) "rpm" ["-q"; "spice-vdagent"];
       LookPath "apt-get";
       Run (Some 60) "apt-get" ["install"; "-y"; "spice-vdagent"];
       LookPath "dnf";
       Run (Some 60) "dnf" ["install"; "-y"; "spice-vdagent"];
       Run (Some 10) "systemctl" ["enable"; "spice-vdagentd"];
       Run (Some 10) "systemctl" ["start"; "spice-vdagentd"];
       Sleep 500;
       Run (Some 2) "systemctl" ["is-active"; "spice-vdagentd"] ]).
Proof. vm_compute. repeat split; reflexivity. Qed.

(** ** The viewer lookup *)

Import spiceclient.

Lemma lookFirst_outcome (o : Oracle) (cs : list string) :
  forall tr,
    match lookFirst cs o tr with
    | (Ok path, tr') =>
        exists before viewer after,
          cs = (before ++ viewer :: after)%list /\
          unresolved o tr before /\
          let t := (tr ++ map LookPath before)%list in
          ok (o t (LookPath viewer)) = true /\
          path = out (o t (LookPath viewer)) /\
          tr' = (t ++ [LookPath viewer])%list
    | (Err msg, tr') =>
        msg = errNoViewer /\
        unresolved o tr cs /\
        tr' = (tr ++ map LookPath cs)%list
    end.
Proof.
  induction cs as [| c rest IH]; intros tr.
  - simpl. repeat split. now rewrite app_nil_r.
  - simpl. unfold bind, call.
    destruct (ok (o tr (LookPath c))) eqn:Hc.
    + simpl. exists [], c, rest. simpl. rewrite app_nil_r.
      repeat split. exact Hc.
    + specialize (IH (tr ++ [LookPath c])%list).
      destruct (lookFirst rest o (tr ++ [LookPath c])%list) as [[path | msg] tr'].
      * destruct IH as (before & viewer & after & E & U & R & P & T).
        exists (c :: before), viewer, after. simpl.
        rewrite <- app_assoc in R, P. simpl in R, P.
        repeat split; try assumption.
        -- now rewrite E.
        -- subst tr'. now rewrite <- !app_assoc.
      * destruct IH as (E & U & T).
        rewrite <- app_assoc in T. simpl in T.
        repeat split; assumption.
Qed.

Lemma lookFirst_finds (o : Oracle) (before : list string) :
  forall tr viewer after,
    unresolved o tr before ->
    ok (o (tr ++ map LookPath before)%list (LookPath viewer)) = true ->
    lookFirst (before ++ viewer :: after) o tr
    = (Ok (out (o (tr ++ map LookPath before)%list (LookPath viewer))),
       (tr ++ map LookPath before ++ [LookPath viewer])%list).
Proof.
  induction before as [| c rest IH]; intros tr viewer after U R.
  - simpl in *. rewrite app_nil_r in R. unfold bind, call.
    rewrite R. simpl. now rewrite app_nil_r.
  - simpl in *. destruct U as [Uc Urest]. unfold bind, call. rewrite Uc.
    replace (tr ++ LookPath c :: map LookPath rest)%list
      with ((tr ++ [LookPath c]) ++ map LookPath rest)%list in *
      by (now rewrite <- app_assoc).
    rewrite (IH _ viewer after Urest R).
    now rewrite <- !app_assoc.
Qed.

(** C9: on a platform with a candidate list, [FindViewer] returns the
    first candidate that resolves, having looked up the ones before it in
    order and found none of them; it fails with the not-found error, whose
    text carries the install hint, only when it has looked up every
    candidate and none resolved; a candidate that does not resolve never
    ends the search.  On a platform without a list it fails with another
    error and looks nothing up. *)
Theorem FindViewer_first_resolving
  (goos : string) (o : Oracle) (tr : list Action) :
  match candidates goos with
  | Some cs =>
      match FindViewer goos o tr with
      | (Ok path, tr') =>
          exists before viewer after,
            cs = (before ++ viewer :: after)%list /\
            unresolved o tr before /\
            let t := (tr ++ map LookPath before)%list in
            ok (o t (LookPath viewer)) = true /\
            path = out (o t (LookPath viewer)) /\
            tr' = (t ++ [LookPath viewer])%list
      | (Err msg, tr') =>
          msg = errNoViewer /\
          strings.Contains msg "install remote-viewer or spicy" = true /\
          unresolved o tr cs /\
          tr' = (tr ++ map LookPath cs)%list
      end /\
      (forall before viewer after,
          cs = (before ++ viewer :: after)%list ->
          unresolved o tr before ->
          ok (o (tr ++ map LookPath before)%list (LookPath viewer)) = true ->
          FindViewer goos o tr
          = (Ok (out (o (tr ++ map LookPath before)%list (LookPath viewer))),
             (tr ++ map LookPath before ++ [LookPath viewer])%list))
  | None =>
      FindViewer goos o tr = (Err ("unsupported platform: " ++ goos), tr)
  end.
Proof.
  unfold FindViewer.
  destruct (candidates goos) as [cs |]; [ | reflexivity ].
  split.
  - pose proof (lookFirst_outcome o cs tr) as L.
    destruct (lookFirst cs o tr) as [[path | msg] tr']; [ exact L | ].
    destruct L as (E & U & T). subst msg. repeat split; assumption.
  - intros before viewer after E U R. subst cs.
    now apply lookFirst_finds.
Qed.

(** The candidate lists of the three platforms, and a host on which the
    first candidate is missing and the second one is found. *)
Example FindViewer_linux_spicy :
  candidates "darwin" = Some ["remote-viewer"; "spicy"] /\
  candidates "linux" = Some ["remote-viewer"; "spicy"; "virt-viewer"] /\
  candidates "windows"
  = Some ["remote-viewer.exe"; "spicy.exe"; "virt-viewer.exe"] /\
  FindViewer "linux" hostWithSpicy []
  = (Ok "/usr/bin/spicy", [LookPath "remote-viewer"; LookPath "spicy"]).
Proof. repeat split; reflexivity. Qed.

(** ** The display-string codec *)

(** C5: a unix-socket display string, the scheme [spice+unix://] followed
    by a non-empty socket path, parses to a connection whose [UnixPath] is
    that path, with no host, port or password, and [buildSpiceURI] of the
    connection gives the display string back. *)
Theorem unix_socket_round_trip (path : string) :
  path <> "" ->
  exists conn,
    GetConnectionInfo ("spice+unix://" ++ path) = Ok conn /\
    UnixPath conn = path /\
    Host conn = "" /\ Port conn = "" /\ Password conn = "" /\
    buildSpiceURI conn = Ok ("spice+unix://" ++ path).
Proof.
  intros Hpath.
  exists (setUnixPath path zeroConnection).
  assert (Hpre : strings.HasPrefix ("spice+unix://" ++ path) "spice+unix://"
                 = true).
  { unfold strings.HasPrefix. simpl. now destruct path. }
  unfold GetConnectionInfo, strings.TrimPrefix. rewrite Hpre.
  repeat split.
  unfold buildSpiceURI. simpl.
  apply String.eqb_neq in Hpath. now rewrite Hpath.
Qed.

Lemma unix_socket_round_trip_witness :
  exists conn,
    GetConnectionInfo "spice+unix:///p" = Ok conn /\
    UnixPath conn = "/p" /\
    Host conn = "" /\ Port conn = "" /\ Password conn = "" /\
    buildSpiceURI conn = Ok "spice+unix:///p".
Proof.
  apply (unix_socket_round_trip "/p"). discriminate.
Defined.

(** The scheme alone, with an empty path, parses, but no URI can be built
    from the result: the path has to be non-empty for the round trip. *)
Example unix_socket_empty_path :
  exists conn,
    GetConnectionInfo "spice+unix://" = Ok conn /\
    buildSpiceURI conn = Err "host and port required for TCP connection".
Proof. eexists. split; reflexivity. Qed.

(** *** Splitting and cutting at a byte *)

Lemma append_empty_r (s : string) : s ++ "" = s.
Proof. induction s as [| c s IH]; simpl; [ reflexivity | now rewrite IH ]. Qed.

Lemma hasByte_append (c : ascii) (s t : string) :
  hasByte c (s ++ t) = hasByte c s || hasByte c t.
Proof.
  induction s as [| a s IH]; simpl; [ reflexivity | ].
  rewrite IH. now rewrite orb_assoc.
Qed.

Lemma Split_whole (c : ascii) (s : string) :
  hasByte c s = false -> strings.Split s c = [s].
Proof.
  induction s as [| a s IH]; simpl; intros H; [ reflexivity | ].
  apply orb_false_iff in H. destruct H as [Ha Hs].
  rewrite Ha. now rewrite (IH Hs).
Qed.

Lemma Split_piece (c : ascii) (s t : string) :
  hasByte c s = false ->
  strings.Split (s ++ String c t) c = s :: strings.Split t c.
Proof.
  induction s as [| a s IH]; simpl; intros H.
  - now rewrite Ascii.eqb_refl.
  - apply orb_false_iff in H. destruct H as [Ha Hs].
    rewrite Ha. now rewrite (IH Hs).
Qed.

Lemma Cut_first (c : ascii) (k v : string) :
  hasByte c k = false -> strings.Cut (k ++ String c v) c = Some (k, v).
Proof.
  induction k as [| a k IH]; simpl; intros H.
  - now rewrite Ascii.eqb_refl.
  - apply orb_false_iff in H. destruct H as [Ha Hk].
    rewrite Ha. now rewrite (IH Hk).
Qed.

(** *** The option list *)

Lemma plainOption_parts (k v : string) :
  plainOption (k, v) = true ->
  hasByte comma k = false /\ hasByte equals k = false /\
  strings.TrimSpace k = k /\
  hasByte comma v = false /\ strings.TrimSpace v = v.
Proof.
  unfold plainOption, plainKey, plainValue. simpl. intros H.
  repeat match goal with
         | X : _ && _ = true |- _ => apply andb_true_iff in X; destruct X
         | X : negb _ = true |- _ => apply negb_true_iff in X
         | X : String.eqb _ _ = true |- _ => apply String.eqb_eq in X
         end.
  repeat split; assumption.
Qed.

Lemma optionText_no_comma (k v : string) :
  plainOption (k, v) = true -> hasByte comma (optionText (k, v)) = false.
Proof.
  intros H. destruct (plainOption_parts k v H) as (Hk & _ & _ & Hv & _).
  unfold optionText. simpl. rewrite hasByte_append. simpl.
  now rewrite Hk, Hv.
Qed.


Lemma parseOption_plain (conn : Connection) (k v : string) :
  plainOption (k, v) = true ->
  parseOption conn (optionText (k, v))
  = if String.eqb k "port" then setPort v conn
    else if String.eqb k "addr" then setHost v conn
    else if String.eqb k "password" then setPassword v conn
    else conn.
Proof.
  intros H. destruct (plainOption_parts k v H) as (_ & Hk & Tk & _ & Tv).
  unfold parseOption, optionText, strings.SplitN2. simpl fst. simpl snd.
  destruct (String.eqb (k ++ "=" ++ v) "spice") eqn:E.
  - apply String.eqb_eq in E.
    apply (f_equal (hasByte equals)) in E.
    rewrite hasByte_append in E. simpl in E.
    rewrite orb_true_r in E. discriminate.
  - change (k ++ "=" ++ v) with (k ++ String equals v).
    rewrite (Cut_first equals k v Hk). now rewrite Tk, Tv.
Qed.




(** What [given] says of a key that is absent, and of its last
    occurrence. *)
Lemma given_absent (key : string) (kvs : list (string * string)) :
  given key kvs = None <-> (forall k v, In (k, v) kvs -> k <> key).
Proof.
  induction kvs as [| [k v] rest IH]; simpl.
  - split; [ intros _ k v [] | reflexivity ].
  - destruct (given key rest) as [v' |].
    + split; [ discriminate | ].
      intros H. exfalso.
      assert (Some v' = None) as X; [ | discriminate X ].
      apply IH. intros k0 v0 Hin. apply (H k0 v0). now right.
    + destruct (String.eqb k key) eqn:E.
      * split; [ discriminate | ].
        intros H. apply String.eqb_eq in E.
        exfalso. apply (H k v); [ now left | exact E ].
      * split; [ | reflexivity ].
        intros _ k0 v0 [Heq | Hin].
        -- inversion Heq; subst. now apply String.eqb_neq.
        -- destruct IH as [IH _]. now apply (IH eq_refl k0 v0).
Qed.

Lemma given_last (key v : string) (before after : list (string * string)) :
  given key after = None ->
  given key (before ++ (key, v) :: after) = Some v.
Proof.
  intros H. induction before as [| [k0 v0] rest IH]; simpl.
  - rewrite H. now rewrite String.eqb_refl.
  - now rewrite IH.
Qed.

(** The defaults when no option is given, and the URI of the example. *)
Example GetConnectionInfo_examples :
  GetConnectionInfo "spice"
  = Ok (mkConnection "127.0.0.1" "5900" "" "" false) /\
  GetConnectionInfo "spice,addr=0.0.0.0,port=5931"
  = Ok (mkConnection "0.0.0.0" "5931" "" "" false) /\
  buildSpiceURI (mkConnection "0.0.0.0" "5931" "" "" false)
  = Ok "spice://0.0.0.0:5931" /\
  GetConnectionInfo "vnc" = Err "invalid SPICE display string: vnc".
Proof. repeat split; reflexivity. Qed.

(** ** The display session controller *)

Import session.

(** Between its start and its close a controller holds a session. *)
Lemma handle_keeps_session (c : Controller) (e : WindowEvent) :
  HasSession c = true -> HasSession (handle c e) = true.
Proof.
  destruct c as [s d]. unfold HasSession.
  destruct e, s; simpl; intros H; try discriminate; reflexivity.
Qed.

Lemma events_keep_session (events : list WindowEvent) :
  forall c, HasSession c = true ->
            HasSession (fold_left handle events c) = true.
Proof.
  induction events as [| e rest IH]; intros c H; simpl; [ exact H | ].
  apply IH. now apply handle_keeps_session.
Qed.

(** C3: on a fresh controller [BringToForeground] fails with
    NotInitializedError and [Start] succeeds; after the start, and after
    any showing, hiding and foregrounding that follows, [HasSession] is
    true; after the close transition [HasSession] is false, and [Start] on
    that same controller fails with AlreadyStartedError and leaves it
    stopped. *)
Theorem session_lifecycle :
  BringToForeground newController = (newController, Some NotInitializedError) /\
  (forall cfg, snd (Start cfg newController) = None) /\
  (forall cfg events,
      let started := fst (Start cfg newController) in
      let c := fold_left handle events started in
      HasSession started = true /\
      HasSession c = true /\
      HasSession (Close c) = false /\
      forall cfg',
        Start cfg' (Close c) = (Close c, Some AlreadyStartedError)).
Proof.
  split; [ reflexivity | ]. split; [ reflexivity | ].
  intros cfg events. cbv zeta.
  assert (Hs : HasSession (fst (Start cfg newController)) = true)
    by reflexivity.
  split; [ exact Hs | ].
  split; [ now apply events_keep_session | ].
  split; reflexivity.
Qed.

(** A run of the lifecycle: start with the default dimensions, hide,
    bring to the foreground, close. *)
Example session_run :
  let c1 := fst (Start (mkConfig None None) newController) in
  let c2 := fst (BringToForeground (Hide (Show c1))) in
  let c3 := Close c2 in
  c1 = mkController Created (Some (1920, 1200)) /\
  state c2 = Visible /\ state c3 = Stopped /\
  snd (Start (mkConfig (Some 800) (Some 600)) c3) = Some AlreadyStartedError.
Proof. repeat split; reflexivity. Qed.

(** * Further properties of the code *)

(** ** Which actions a computation adds *)

Lemma addsOnly_ret (allowed : Action -> bool) {A : Type} (a : A) :
  addsOnly allowed (ret a).
Proof.
  intros o tr. exists []. split; [ simpl; now rewrite app_nil_r | reflexivity ].
Qed.

Lemma addsOnly_call (allowed : Action -> bool) (a : Action) :
  allowed a = true -> addsOnly allowed (call a).
Proof.
  intros Ha o tr. exists [a]. split; [ reflexivity | ].
  simpl. now rewrite Ha.
Qed.

Lemma addsOnly_bind (allowed : Action -> bool) {A B : Type}
  (m : M A) (k : A -> M B) :
  addsOnly allowed m -> (forall a, addsOnly allowed (k a)) ->
  addsOnly allowed (bind m k).
Proof.
  intros Hm Hk o tr. unfold bind.
  destruct (Hm o tr) as [l1 [E1 P1]].
  destruct (m o tr) as [a t1]. simpl in E1. subst t1.
  destruct (Hk a o (tr ++ l1)%list) as [l2 [E2 P2]].
  exists (l1 ++ l2)%list. split.
  - rewrite E2. now rewrite app_assoc.
  - rewrite forallb_app. now rewrite P1, P2.
Qed.

Ltac adds_steps :=
  repeat first
    [ apply addsOnly_ret
    | apply addsOnly_call; reflexivity
    | apply addsOnly_bind; [ | intro ]
    | match goal with
      | |- addsOnly _ (if ?b then _ else _) => destruct b
      | |- addsOnly _ (match ?x with _ => _ end) => destruct x
      end ].

Lemma probing_addsOnly (allowed : Action -> bool) {A : Type} (m : M A) :
  (forall a, isRepair a = false -> allowed a = true) ->
  probing m -> addsOnly allowed m.
Proof.
  intros Himp Hm o tr. destruct (Hm o tr) as [added [E P]].
  exists added. split; [ exact E | ].
  apply forallb_forall. intros a Hin.
  apply Himp. unfold probesOnly in P. rewrite Forall_forall in P. now apply P.
Qed.

Lemma notRepair_notInstall (a : Action) :
  isRepair a = false -> notInstall a = true.
Proof.
  unfold isRepair, notInstall. intros H.
  apply orb_false_iff in H. destruct H as [H _]. now rewrite H.
Qed.

Lemma notRepair_notEnableOrStart (a : Action) :
  isRepair a = false -> notEnableOrStart a = true.
Proof.
  unfold isRepair, notEnableOrStart. intros H.
  apply orb_false_iff in H. destruct H as [_ H]. now rewrite H.
Qed.

Lemma installWith_addsOnly (allowed : Action -> bool)
  (pms : list PackageManager) :
  forallb (fun pm => allowed (LookPath (cmd pm)) && allowed (installCommand pm))
          pms = true ->
  addsOnly allowed (installWith pms).
Proof.
  induction pms as [| pm rest IH]; simpl; intros H.
  - apply addsOnly_ret.
  - apply andb_true_iff in H. destruct H as [Hpm Hrest].
    apply andb_true_iff in Hpm. destruct Hpm as [Hprobe Hinst].
    specialize (IH Hrest).
    apply addsOnly_bind; [ now apply addsOnly_call | intro probe ].
    destruct (negb (ok probe)); [ exact IH | ].
    apply addsOnly_bind; [ now apply addsOnly_call | intro res ].
    destruct (negb (ok res)); [ exact IH | apply addsOnly_ret ].
Qed.

Lemma installSpiceAgent_no_service_command :
  addsOnly notEnableOrStart installSpiceAgent.
Proof. apply installWith_addsOnly. reflexivity. Qed.

Lemma startSpiceService_no_install : addsOnly notInstall startSpiceService.
Proof.
  unfold startSpiceService, checkSpiceRunning. adds_steps.
Qed.

(** ** Starting the service *)

Lemma longer_trace_differs (tr added : list Action) :
  added <> [] -> (tr ++ added)%list <> tr.
Proof.
  intros Hne Heq. apply (f_equal (@List.length Action)) in Heq.
  rewrite length_app in Heq.
  destruct added; [ now apply Hne | simpl in Heq; lia ].
Qed.

Lemma checkSpiceRunning_agree (o o' : Oracle) (t : list Action) :
  (forall a, o t a = o' t a) ->
  (forall a b, o (t ++ [a])%list b = o' (t ++ [a])%list b) ->
  checkSpiceRunning o t = checkSpiceRunning o' t.
Proof.
  intros H0 H1. unfold checkSpiceRunning, bind, call.
  rewrite H0.
  destruct (ok _ && String.eqb _ "active"); [ reflexivity | ].
  rewrite H1. now destruct (ok _).
Qed.

(** The answer to the enable request does not matter: two environments
    that differ in nothing but what they answer at the trace [tr], where
    [startSpiceService] issues the enable request, give the same error
    and the same trace. *)
Theorem startSpiceService_enable_not_fatal (o o' : Oracle) (tr : list Action) :
  (forall t a, t <> tr -> o t a = o' t a) ->
  startSpiceService o tr = startSpiceService o' tr.
Proof.
  intros H. unfold startSpiceService, bind, call.
  rewrite (H (tr ++ [enableCommand])%list startCommand)
    by (apply longer_trace_differs; discriminate).
  destruct (err (o' (tr ++ [enableCommand])%list startCommand));
    [ reflexivity | ].
  rewrite (checkSpiceRunning_agree o o');
    [ destruct (checkSpiceRunning o' _) as [[|] t3]; reflexivity | | ].
  - intros a. apply H. rewrite <- !app_assoc.
    apply longer_trace_differs. discriminate.
  - intros a b. apply H. rewrite <- !app_assoc.
    apply longer_trace_differs. discriminate.
Qed.

Lemma startSpiceService_enable_not_fatal_witness :
  startSpiceService (guest true true true false) []
  = startSpiceService (failingAt 0 (guest true true true false)) [].
Proof.
  apply (startSpiceService_enable_not_fatal
           (guest true true true false)
           (failingAt 0 (guest true true true false)) []).
  intros t a Ht. destruct t; [ now elim Ht | reflexivity ].
Defined.

(** The three outcomes of [startSpiceService]: it succeeds exactly when
    the start request succeeds and the running check made after the pause
    is positive; a rejected start request ends the call at once, without
    pause or check, with an error that quotes the request's error and
    output; a start that succeeded without the agent running afterwards
    gives the separate error [service started but not running]. *)
Theorem startSpiceService_outcomes (o : Oracle) (tr : list Action) :
  let t1 := (tr ++ [enableCommand])%list in
  let started := o t1 startCommand in
  let verify := checkSpiceRunning o (t1 ++ [startCommand; Sleep 500])%list in
  (fst (startSpiceService o tr) = None
   <-> ok started = true /\ fst verify = true) /\
  (ok started = false ->
   snd (startSpiceService o tr) = (t1 ++ [startCommand])%list /\
   exists e,
     err started = Some e /\
     fst (startSpiceService o tr)
     = Some ("failed to start spice-vdagentd: " ++ e
             ++ " (output: " ++ out started ++ ")")) /\
  (ok started = true -> fst verify = false ->
   startSpiceService o tr
   = (Some "service started but not running", snd verify)).
Proof.
  cbv zeta. unfold startSpiceService, bind, call, ok. cbn [fst snd].
  destruct (err (o (tr ++ [enableCommand])%list startCommand)) as [e |];
    cbn [isNil].
  - split; [ | split ].
    + split; [ discriminate | intros [H _]; discriminate ].
    + intros _. split; [ reflexivity | ]. exists e. now split.
    + discriminate.
  - rewrite <- !app_assoc. cbn [app].
    destruct (checkSpiceRunning o
                (tr ++ [enableCommand; startCommand; Sleep 500])%list)
      as [running t3].
    cbn [fst snd]. destruct running; cbn [negb ret fst snd].
    + repeat split; try discriminate.
    + split; [ | split ].
      * split; [ discriminate | intros [_ H]; discriminate ].
      * discriminate.
      * reflexivity.
Qed.

Lemma startSpiceService_success (o : Oracle) (tr : list Action) :
  fst (startSpiceService o tr) = None ->
  exists t,
    fst (checkSpiceRunning o t) = true /\
    snd (checkSpiceRunning o t) = snd (startSpiceService o tr).
Proof.
  unfold startSpiceService, bind, call. cbn [fst snd].
  destruct (err (o (tr ++ [enableCommand])%list startCommand)) as [e |];
    [ discriminate | ].
  intros H.
  exists (((tr ++ [enableCommand]) ++ [startCommand]) ++ [Sleep 500])%list.
  destruct (checkSpiceRunning o
              (((tr ++ [enableCommand]) ++ [startCommand]) ++ [Sleep 500])%list)
    as [[|] t3]; [ split; reflexivity | discriminate H ].
Qed.

(** ** The supervisor, phase by phase *)

(** What [EnsureSpiceAgent] does once the detector has answered [st] with
    the trace [tr0]. *)
Lemma EnsureSpiceAgent_after_detect (o : Oracle) (tr : list Action) :
  let st := fst (DetectSpiceStatus o tr) in
  let tr0 := snd (DetectSpiceStatus o tr) in
  let starting :=
    (match fst (startSpiceService o tr0) with
     | Some e => Some ("failed to start spice-vdagentd: " ++ e)
     | None => None
     end, snd (startSpiceService o tr0)) in
  EnsureSpiceAgent o tr
  = if ClipboardReady st then (None, tr0)
    else if negb (VPortExists st) then (Some errNoPort, tr0)
    else if AgentInstalled st then starting
    else match installSpiceAgent o tr0 with
         | (Some e, tr1) => (Some ("failed to install spice-vdagent: " ++ e), tr1)
         | (None, tr1) =>
             (match fst (startSpiceService o tr1) with
              | Some e => Some ("failed to start spice-vdagentd: " ++ e)
              | None => None
              end, snd (startSpiceService o tr1))
         end.
Proof.
  cbv zeta.
  destruct (DetectSpiceStatus_fields o tr) as (_ & _ & _ & Hc & _).
  pose proof (detected_running_under_installed o tr) as Hrun.
  unfold EnsureSpiceAgent, bind.
  destruct (DetectSpiceStatus o tr) as [st tr0]. cbn [fst snd] in *.
  destruct (ClipboardReady st) eqn:Hready; [ reflexivity | ].
  destruct (VPortExists st); cbn [negb]; [ | reflexivity ].
  destruct (AgentInstalled st); cbn [negb].
  - cbn [andb] in Hc, Hrun. rewrite <- Hc. cbn [negb ret].
    destruct (startSpiceService o tr0) as [[e |] t2]; reflexivity.
  - cbn [andb] in Hrun. rewrite Hrun. cbn [negb].
    destruct (installSpiceAgent o tr0) as [[e |] tr1]; [ reflexivity | ].
    destruct (startSpiceService o tr1) as [[e |] t2]; reflexivity.
Qed.

(** [EnsureSpiceAgent] returns success only right after a running check
    that found the agent running: the last thing it did is a
    [checkSpiceRunning] whose answer was positive, be it the detector's
    own or the one that verifies the start. *)
Theorem EnsureSpiceAgent_success_seen_running (o : Oracle) (tr : list Action) :
  fst (EnsureSpiceAgent o tr) = None ->
  exists t,
    fst (checkSpiceRunning o t) = true /\
    snd (checkSpiceRunning o t) = snd (EnsureSpiceAgent o tr).
Proof.
  rewrite (EnsureSpiceAgent_after_detect o tr).
  destruct (DetectSpiceStatus_fields o tr) as (_ & Hi & Hr & Hc & _ & Ht).
  destruct (ClipboardReady (fst (DetectSpiceStatus o tr))) eqn:Hready.
  - intros _. cbn [snd].
    symmetry in Hc. apply andb_true_iff in Hc. destruct Hc as [_ Hrun].
    rewrite Hr in Hrun. apply andb_true_iff in Hrun.
    destruct Hrun as [Hinst Hrunning].
    rewrite Hinst in Ht.
    exists (snd (checkSpiceInstalled o (snd (checkVirtioPort o tr)))).
    split; [ exact Hrunning | now rewrite Ht ].
  - destruct (negb (VPortExists (fst (DetectSpiceStatus o tr))));
      [ discriminate | ].
    destruct (AgentInstalled (fst (DetectSpiceStatus o tr))).
    + cbn [fst snd]. intros H.
      apply startSpiceService_success.
      now destruct (fst (startSpiceService o (snd (DetectSpiceStatus o tr)))).
    + destruct (installSpiceAgent o (snd (DetectSpiceStatus o tr)))
        as [[e |] tr1]; [ discriminate | ].
      cbn [fst snd]. intros H.
      apply startSpiceService_success.
      now destruct (fst (startSpiceService o tr1)).
Qed.

Lemma EnsureSpiceAgent_success_seen_running_witness :
  exists t,
    fst (checkSpiceRunning guestAptBroken t) = true /\
    snd (checkSpiceRunning guestAptBroken t)
    = snd (EnsureSpiceAgent guestAptBroken []).
Proof.
  apply (EnsureSpiceAgent_success_seen_running guestAptBroken []).
  reflexivity.
Defined.

(** An install failure ends the repair: whenever [EnsureSpiceAgent]
    returns the install error, no enable and no start request is among
    the actions it took. *)
Theorem EnsureSpiceAgent_install_failure_aborts
  (o : Oracle) (tr : list Action) :
  fst (EnsureSpiceAgent o tr)
  = Some ("failed to install spice-vdagent: " ++ errInstall) ->
  exists added,
    snd (EnsureSpiceAgent o tr) = (tr ++ added)%list /\
    forallb notEnableOrStart added = true.
Proof.
  rewrite (EnsureSpiceAgent_after_detect o tr).
  destruct (probing_addsOnly notEnableOrStart DetectSpiceStatus
              notRepair_notEnableOrStart DetectSpiceStatus_probing o tr)
    as [probes [Et Ep]].
  destruct (ClipboardReady (fst (DetectSpiceStatus o tr)));
    [ discriminate | ].
  destruct (negb (VPortExists (fst (DetectSpiceStatus o tr))));
    [ discriminate | ].
  destruct (AgentInstalled (fst (DetectSpiceStatus o tr))).
  - cbn [fst].
    destruct (fst (startSpiceService o (snd (DetectSpiceStatus o tr))));
      discriminate.
  - destruct (installSpiceAgent_no_service_command
                o (snd (DetectSpiceStatus o tr))) as [more [Em Ep']].
    destruct (installSpiceAgent o (snd (DetectSpiceStatus o tr)))
      as [[e |] tr1]; cbn [fst snd] in *.
    + intros _. exists (probes ++ more)%list. split.
      * rewrite Em, Et. now rewrite app_assoc.
      * rewrite forallb_app. now rewrite Ep, Ep'.
    + destruct (fst (startSpiceService o tr1)); discriminate.
Qed.

Lemma EnsureSpiceAgent_install_failure_aborts_witness :
  exists added,
    snd (EnsureSpiceAgent guestNoInstall []) = ([] ++ added)%list /\
    forallb notEnableOrStart added = true.
Proof.
  apply (EnsureSpiceAgent_install_failure_aborts guestNoInstall []).
  reflexivity.
Defined.

(** An agent that is installed is never installed again: when the
    detector finds the transport and the agent installed but not running,
    [EnsureSpiceAgent] goes straight to starting the service, its result
    is that of [startSpiceService], wrapped when it is an error, and no
    package manager is run. *)
Theorem EnsureSpiceAgent_installed_only_starts
  (o : Oracle) (tr : list Action) :
  let st := fst (DetectSpiceStatus o tr) in
  let tr0 := snd (DetectSpiceStatus o tr) in
  VPortExists st = true ->
  AgentInstalled st = true ->
  AgentRunning st = false ->
  EnsureSpiceAgent o tr
  = (match fst (startSpiceService o tr0) with
     | Some e => Some ("failed to start spice-vdagentd: " ++ e)
     | None => None
     end, snd (startSpiceService o tr0)) /\
  exists added,
    snd (EnsureSpiceAgent o tr) = (tr ++ added)%list /\
    forallb notInstall added = true.
Proof.
  cbv zeta. intros Hv Hi Hr.
  destruct (DetectSpiceStatus_fields o tr) as (_ & _ & _ & Hc & _).
  rewrite (EnsureSpiceAgent_after_detect o tr).
  rewrite Hc, Hv, Hi, Hr. cbn [andb negb].
  split; [ reflexivity | ]. cbn [snd].
  destruct (probing_addsOnly notInstall DetectSpiceStatus
              notRepair_notInstall DetectSpiceStatus_probing o tr)
    as [probes [Et Ep]].
  destruct (startSpiceService_no_install o (snd (DetectSpiceStatus o tr)))
    as [more [Em Ep']].
  exists (probes ++ more)%list. split.
  - rewrite Em, Et. now rewrite app_assoc.
  - rewrite forallb_app. now rewrite Ep, Ep'.
Qed.

Lemma EnsureSpiceAgent_installed_only_starts_witness :
  let o := guest true true false false in
  fst (EnsureSpiceAgent o [])
  = Some ("failed to start spice-vdagentd: "
          ++ "failed to start spice-vdagentd: exit status 1 (output: )") /\
  exists added,
    snd (EnsureSpiceAgent o []) = ([] ++ added)%list /\
    forallb notInstall added = true.
Proof.
  destruct (EnsureSpiceAgent_installed_only_starts
              (guest true true false false) [] eq_refl eq_refl eq_refl)
    as [E P].
  split; [ now rewrite E | exact P ].
Defined.

(** ** The probes of the detector *)



(** [checkVirtioPort] finds the transport exactly when [/dev] can be
    listed and either holds an entry whose name starts with [vport] or,
    failing that, the sysfs directory of the virtio ports exists, can be
    listed and is not empty.  When [/dev] cannot be listed the answer is
    negative at once and the sysfs directory is not looked at. *)
Theorem checkVirtioPort_found (o : Oracle) (tr : list Action) :
  let dev := o tr (ReadDir "/dev") in
  let t1 := (tr ++ [ReadDir "/dev"])%list in
  let st := o t1 (Stat "/sys/class/virtio-ports") in
  let t2 := (t1 ++ [Stat "/sys/class/virtio-ports"])%list in
  let entries := o t2 (ReadDir "/sys/class/virtio-ports") in
  let node :=
    existsb (fun entry => strings.HasPrefix entry "vport") (names dev) in
  (fst (checkVirtioPort o tr) = true
   <-> ok dev = true /\
       (node = true \/
        (ok st = true /\ ok entries = true /\ names entries <> []))) /\
  (ok dev = false -> checkVirtioPort o tr = (false, t1)) /\
  (ok dev = true -> node = true -> checkVirtioPort o tr = (true, t1)).
Proof.
  cbv zeta. unfold checkVirtioPort, bind, call, ret. cbn [fst snd].
  destruct (ok (o tr (ReadDir "/dev"))); cbn [negb];
    [ | intuition discriminate ].
  destruct (existsb _ (names (o tr (ReadDir "/dev"))));
    [ intuition discriminate | ].
  destruct (ok (o (tr ++ [ReadDir "/dev"])%list
                  (Stat "/sys/class/virtio-ports")));
    [ | cbn [fst]; intuition discriminate ].
  destruct (ok (o ((tr ++ [ReadDir "/dev"]) ++
                   [Stat "/sys/class/virtio-ports"])%list
                  (ReadDir "/sys/class/virtio-ports"))); cbn [andb];
    [ | cbn [fst]; intuition discriminate ].
  destruct (names (o ((tr ++ [ReadDir "/dev"]) ++
                      [Stat "/sys/class/virtio-ports"])%list
                     (ReadDir "/sys/class/virtio-ports"))) as [| n ns];
    cbn [List.length Nat.ltb Nat.leb fst];
    intuition (try discriminate; try congruence).
Qed.

(** On a guest whose [/dev] cannot be listed the transport is reported
    absent although the sysfs directory is populated. *)
Example checkVirtioPort_unreadable_dev :
  checkVirtioPort guestNoDev [] = (false, [ReadDir "/dev"]) /\
  ok (guestNoDev [ReadDir "/dev"] (Stat "/sys/class/virtio-ports")) = true /\
  names (guestNoDev [ReadDir "/dev"; Stat "/sys/class/virtio-ports"]
           (ReadDir "/sys/class/virtio-ports")) = ["vport1p1"].
Proof. repeat split; reflexivity. Qed.

(** ** More on the display-string codec *)

Lemma Split_tokens (ts : list string) :
  forall s,
    hasByte comma s = false ->
    forallb commaFree ts = true ->
    strings.Split (s ++ tokens ts) comma = s :: ts.
Proof.
  induction ts as [| t rest IH]; intros s Hs Hall; simpl.
  - rewrite append_empty_r. now apply Split_whole.
  - simpl in Hall. apply andb_true_iff in Hall. destruct Hall as [Ht Hrest].
    apply negb_true_iff in Ht.
    rewrite (Split_piece comma s _ Hs).
    now rewrite (IH _ Ht Hrest).
Qed.

Lemma tokens_not_unix (ts : list string) :
  strings.HasPrefix ("spice" ++ tokens ts) "spice+unix://" = false /\
  strings.HasPrefix ("spice" ++ tokens ts) "spice" = true.
Proof.
  split.
  - destruct ts; reflexivity.
  - unfold strings.HasPrefix. simpl. now destruct (tokens ts).
Qed.

(** What [GetConnectionInfo] makes of the protocol token followed by
    comma-free tokens: the loop body folded over the tokens, from the
    defaults. *)
Lemma GetConnectionInfo_tokens (ts : list string) :
  forallb commaFree ts = true ->
  GetConnectionInfo ("spice" ++ tokens ts)
  = Ok (fold_left parseOption ts
          (setPort "5900" (setHost "127.0.0.1" zeroConnection))).
Proof.
  intros Hall. destruct (tokens_not_unix ts) as [Hunix Hspice].
  unfold GetConnectionInfo. rewrite Hunix, Hspice. cbv zeta. cbn [negb].
  now rewrite (Split_tokens ts "spice" eq_refl Hall).
Qed.

Lemma parseOption_inert (conn : Connection) (t : string) :
  inert t = true -> parseOption conn t = conn.
Proof.
  unfold inert, parseOption, strings.SplitN2, recognizedKey. intros H.
  destruct (String.eqb t "spice"); [ reflexivity | ].
  destruct (strings.Cut t equals) as [[k v] |]; [ | reflexivity ].
  apply negb_true_iff in H.
  apply orb_false_iff in H. destruct H as [H Hw].
  apply orb_false_iff in H. destruct H as [Hp Ha].
  now rewrite Hp, Ha, Hw.
Qed.

Lemma parseOption_skip_inert (ts : list string) :
  forall conn,
    fold_left parseOption (filter (fun t => negb (inert t)) ts) conn
    = fold_left parseOption ts conn.
Proof.
  induction ts as [| t rest IH]; intros conn; simpl; [ reflexivity | ].
  destruct (inert t) eqn:Ht; simpl.
  - rewrite (parseOption_inert conn t Ht). apply IH.
  - apply IH.
Qed.

Lemma filter_commaFree (keep : string -> bool) (ts : list string) :
  forallb commaFree ts = true -> forallb commaFree (filter keep ts) = true.
Proof.
  induction ts as [| t rest IH]; simpl; intros H; [ reflexivity | ].
  apply andb_true_iff in H. destruct H as [Ht Hrest].
  destruct (keep t); simpl; [ rewrite Ht | ]; now apply IH.
Qed.

(** Options that [GetConnectionInfo] does not know are ignored: for the
    protocol token followed by any comma-separated ASCII tokens, dropping
    the tokens that hold no equals sign, and those whose key is none of
    [port], [addr] and [password], changes nothing of the result. *)
Theorem GetConnectionInfo_ignores_unknown (ts : list string) :
  forallb commaFree ts = true ->
  forallb isASCII ts = true ->
  GetConnectionInfo ("spice" ++ tokens ts)
  = GetConnectionInfo
      ("spice" ++ tokens (filter (fun t => negb (inert t)) ts)).
Proof.
  intros Hall _.
  rewrite (GetConnectionInfo_tokens ts Hall).
  rewrite (GetConnectionInfo_tokens _ (filter_commaFree _ ts Hall)).
  now rewrite parseOption_skip_inert.
Qed.

Lemma GetConnectionInfo_ignores_unknown_witness :
  GetConnectionInfo "spice,port=5930,disable-ticketing=on,gl,addr=::1"
  = GetConnectionInfo "spice,port=5930,addr=::1".
Proof.
  apply (GetConnectionInfo_ignores_unknown
           ["port=5930"; "disable-ticketing=on"; "gl"; "addr=::1"]);
    reflexivity.
Defined.

Lemma prefix_of_longer (a b s : string) :
  String.prefix (a ++ b) s = true -> String.prefix a s = true.
Proof.
  revert s. induction a as [| c a IH]; intros s; simpl.
  - intros _. now destruct s.
  - destruct s as [| c' s]; simpl; [ discriminate | ].
    destruct (ascii_dec c c'); [ apply IH | discriminate ].
Qed.

(** [GetConnectionInfo] fails for the strings that do not start with the
    five bytes [spice], with an error that quotes the input, and for no
    other: whatever follows the token, the call succeeds. *)
Theorem GetConnectionInfo_accepts (displayString : string) :
  (strings.HasPrefix displayString "spice" = true ->
   exists conn, GetConnectionInfo displayString = Ok conn) /\
  (strings.HasPrefix displayString "spice" = false ->
   GetConnectionInfo displayString
   = Err ("invalid SPICE display string: " ++ displayString)).
Proof.
  unfold GetConnectionInfo. split; intros H.
  - rewrite H. destruct (strings.HasPrefix displayString "spice+unix://");
      eexists; reflexivity.
  - rewrite H.
    assert (Hunix : strings.HasPrefix displayString "spice+unix://" = false).
    { destruct (strings.HasPrefix displayString "spice+unix://") eqn:E;
        [ | reflexivity ].
      rewrite <- H. symmetry.
      exact (prefix_of_longer "spice" "+unix://" displayString E). }
    now rewrite Hunix.
Qed.

(** Strings that are no display strings of the protocol and yet parse,
    to the defaults. *)
Example GetConnectionInfo_lenient :
  GetConnectionInfo "spiceworks"
  = Ok (mkConnection "127.0.0.1" "5900" "" "" false) /\
  GetConnectionInfo "spice://10.0.0.1:5901"
  = Ok (mkConnection "127.0.0.1" "5900" "" "" false) /\
  GetConnectionInfo "spice,=,,port,addr"
  = Ok (mkConnection "127.0.0.1" "5900" "" "" false) /\
  GetConnectionInfo "Spice,port=5901"
  = Err "invalid SPICE display string: Spice,port=5901".
Proof. repeat split; reflexivity. Qed.

(** *** White space *)

Lemma TrimLeft_shorter (s : string) :
  String.length (strings.TrimLeft s) <= String.length s.
Proof.
  induction s as [| c s IH]; simpl; [ lia | ].
  destruct (strings.isSpace c); simpl; lia.
Qed.

Lemma TrimRight_shorter (s : string) :
  String.length (strings.TrimRight s) <= String.length s.
Proof.
  induction s as [| c s IH]; simpl; [ lia | ].
  destruct (strings.TrimRight s); simpl in *;
    [ destruct (strings.isSpace c); simpl; lia | lia ].
Qed.

Lemma TrimLeft_fixed (s : string) :
  strings.TrimLeft s = s ->
  match s with
  | EmptyString => True
  | String c _ => strings.isSpace c = false
  end.
Proof.
  destruct s as [| c s]; simpl; [ trivial | ].
  destruct (strings.isSpace c); [ | reflexivity ].
  intros H. pose proof (TrimLeft_shorter s) as L.
  rewrite H in L. simpl in L. lia.
Qed.

Lemma TrimSpace_fixed (s : string) :
  strings.TrimSpace s = s ->
  strings.TrimLeft s = s /\ strings.TrimRight s = s.
Proof.
  unfold strings.TrimSpace. intros H.
  assert (E : strings.TrimLeft s = s).
  { destruct s as [| c s]; [ reflexivity | ].
    simpl in *. destruct (strings.isSpace c); [ | reflexivity ].
    pose proof (TrimRight_shorter (strings.TrimLeft s)) as L1.
    pose proof (TrimLeft_shorter s) as L2.
    rewrite H in L1. simpl in L1. lia. }
  split; [ exact E | now rewrite E in H ].
Qed.

Lemma TrimLeft_allSpace (l s : string) :
  allSpace l = true -> strings.TrimLeft (l ++ s) = strings.TrimLeft s.
Proof.
  induction l as [| c l IH]; simpl; intros H; [ reflexivity | ].
  apply andb_true_iff in H. destruct H as [Hc Hl].
  rewrite Hc. now apply IH.
Qed.

Lemma TrimRight_allSpace (s r : string) :
  allSpace r = true -> strings.TrimRight (s ++ r) = strings.TrimRight s.
Proof.
  intros Hr. induction s as [| c s IH]; simpl.
  - induction r as [| c r IHr]; simpl; [ reflexivity | ].
    simpl in Hr. apply andb_true_iff in Hr. destruct Hr as [Hc Hr].
    rewrite (IHr Hr). now rewrite Hc.
  - now rewrite IH.
Qed.

Lemma TrimSpace_padded (l s r : string) :
  allSpace l = true -> allSpace r = true ->
  strings.TrimSpace s = s ->
  strings.TrimSpace (l ++ s ++ r) = s.
Proof.
  intros Hl Hr Hs. destruct (TrimSpace_fixed s Hs) as [HL HR].
  unfold strings.TrimSpace. rewrite (TrimLeft_allSpace l _ Hl).
  pose proof (TrimLeft_fixed s HL) as Hfirst.
  destruct s as [| c s].
  - simpl. clear -Hr.
    induction r as [| c r IH]; simpl; [ reflexivity | ].
    simpl in Hr. apply andb_true_iff in Hr. destruct Hr as [Hc Hr].
    rewrite Hc. now apply IH.
  - change (String c s ++ r) with (String c (s ++ r)).
    cbn [strings.TrimLeft]. rewrite Hfirst.
    change (String c (s ++ r)) with (String c s ++ r).
    now rewrite (TrimRight_allSpace _ r Hr).
Qed.

Lemma allSpace_hasByte (c : ascii) (l : string) :
  strings.isSpace c = false -> allSpace l = true -> hasByte c l = false.
Proof.
  intros Hc. induction l as [| a l IH]; simpl; intros H; [ reflexivity | ].
  apply andb_true_iff in H. destruct H as [Ha Hl].
  rewrite (IH Hl). rewrite orb_false_r.
  destruct (Ascii.eqb a c) eqn:E; [ | reflexivity ].
  apply Ascii.eqb_eq in E. subst a. congruence.
Qed.

(** *** Padded options *)

Lemma padded_parts (x : string * string * string) (c : ascii) :
  strings.isSpace c = false ->
  pads x = true ->
  hasByte c (core x) = false ->
  strings.TrimSpace (core x) = core x ->
  hasByte c (padded x) = false /\ strings.TrimSpace (padded x) = core x.
Proof.
  destruct x as [[l s] r]. simpl. intros Hc Hp Hs Ht.
  apply andb_true_iff in Hp. destruct Hp as [Hl Hr].
  split.
  - rewrite !hasByte_append.
    now rewrite (allSpace_hasByte c l Hc Hl), Hs, (allSpace_hasByte c r Hc Hr).
  - now apply TrimSpace_padded.
Qed.

Lemma paddedPlain_parts
  (kv : (string * string * string) * (string * string * string)) :
  paddedPlain kv = true ->
  hasByte comma (paddedOption kv) = false /\
  hasByte equals (padded (fst kv)) = false /\
  strings.TrimSpace (padded (fst kv)) = core (fst kv) /\
  strings.TrimSpace (padded (snd kv)) = core (snd kv) /\
  plainOption (coreOption kv) = true.
Proof.
  destruct kv as [k v]. unfold paddedPlain, coreOption, paddedOption.
  cbn [fst snd]. intros H.
  apply andb_true_iff in H. destruct H as [H Hplain].
  apply andb_true_iff in H. destruct H as [Hk Hv].
  destruct (plainOption_parts _ _ Hplain) as (Kc & Ke & Kt & Vc & Vt).
  destruct (padded_parts k comma eq_refl Hk Kc Kt) as [Pkc Pkt].
  destruct (padded_parts k equals eq_refl Hk Ke Kt) as [Pke _].
  destruct (padded_parts v comma eq_refl Hv Vc Vt) as [Pvc Pvt].
  repeat split; try assumption.
  rewrite hasByte_append. simpl. now rewrite Pkc, Pvc.
Qed.

Lemma parseOption_padded (conn : Connection)
  (kv : (string * string * string) * (string * string * string)) :
  paddedPlain kv = true ->
  parseOption conn (paddedOption kv)
  = parseOption conn (optionText (coreOption kv)).
Proof.
  intros H. destruct (paddedPlain_parts kv H) as (_ & He & Tk & Tv & Hplain).
  unfold coreOption in *.
  rewrite (parseOption_plain conn _ _ Hplain).
  unfold parseOption, paddedOption, strings.SplitN2.
  destruct (String.eqb (padded (fst kv) ++ "=" ++ padded (snd kv)) "spice")
    eqn:E.
  - apply String.eqb_eq in E.
    apply (f_equal (hasByte equals)) in E.
    rewrite hasByte_append in E. simpl in E.
    rewrite orb_true_r in E. discriminate.
  - change (padded (fst kv) ++ "=" ++ padded (snd kv))
      with (padded (fst kv) ++ String equals (padded (snd kv))).
    rewrite (Cut_first equals _ _ He). now rewrite Tk, Tv.
Qed.

Lemma options_tokens (kvs : list (string * string)) :
  options kvs = tokens (map optionText kvs).
Proof.
  induction kvs as [| kv rest IH]; simpl; [ reflexivity | now rewrite IH ].
Qed.

Lemma optionText_commaFree (kvs : list (string * string)) :
  forallb plainOption kvs = true ->
  forallb commaFree (map optionText kvs) = true.
Proof.
  induction kvs as [| [k v] rest IH]; simpl; intros H; [ reflexivity | ].
  apply andb_true_iff in H. destruct H as [Hkv Hrest].
  unfold commaFree at 1. rewrite (optionText_no_comma k v Hkv).
  now apply IH.
Qed.

(** White space around keys and values does not count: a display string
    whose options carry ASCII white space before or after the key and
    before or after the value parses to what the same options without the
    white space parse to. *)
Theorem GetConnectionInfo_trims
  (items : list ((string * string * string) * (string * string * string))) :
  forallb paddedPlain items = true ->
  GetConnectionInfo ("spice" ++ tokens (map paddedOption items))
  = GetConnectionInfo (displayString (map coreOption items)).
Proof.
  intros Hall.
  assert (Hcores : forallb plainOption (map coreOption items) = true).
  { induction items as [| kv rest IH]; simpl in *; [ reflexivity | ].
    apply andb_true_iff in Hall. destruct Hall as [Hkv Hrest].
    destruct (paddedPlain_parts kv Hkv) as (_ & _ & _ & _ & Hplain).
    rewrite Hplain. now apply IH. }
  assert (Hfree : forallb commaFree (map paddedOption items) = true).
  { induction items as [| kv rest IH]; simpl in *; [ reflexivity | ].
    apply andb_true_iff in Hall. destruct Hall as [Hkv Hrest].
    apply andb_true_iff in Hcores. destruct Hcores as [_ Hcores].
    destruct (paddedPlain_parts kv Hkv) as (Hc & _).
    unfold commaFree at 1. rewrite Hc. now apply IH. }
  unfold displayString. rewrite options_tokens.
  rewrite (GetConnectionInfo_tokens _ Hfree).
  rewrite (GetConnectionInfo_tokens _ (optionText_commaFree _ Hcores)).
  f_equal. clear Hcores Hfree.
  generalize (setPort "5900" (setHost "127.0.0.1" zeroConnection)).
  induction items as [| kv rest IH]; intros conn; simpl; [ reflexivity | ].
  simpl in Hall. apply andb_true_iff in Hall. destruct Hall as [Hkv Hrest].
  rewrite (parseOption_padded conn kv Hkv). now apply IH.
Qed.

Lemma GetConnectionInfo_trims_witness :
  GetConnectionInfo "spice, port = 5930 ,addr=  10.0.0.7"
  = GetConnectionInfo "spice,port=5930,addr=10.0.0.7".
Proof.
  apply (GetConnectionInfo_trims
           [ ((" ", "port", " "), (" ", "5930", " "));
             (("", "addr", ""), ("  ", "10.0.0.7", "")) ]).
  reflexivity.
Defined.

(** *** From the display string to the URI *)




(** An empty port makes a display string that parses and builds no URI. *)
Example network_uri_empty_port :
  exists conn,
    GetConnectionInfo "spice,port=" = Ok conn /\
    Port conn = "" /\
    buildSpiceURI conn = Err "host and port required for TCP connection".
Proof. eexists. repeat split; reflexivity. Qed.

(** ** The running check *)


(** ** The viewer's arguments *)

Lemma parseOption_keeps_Audio (ts : list string) :
  forall conn, Audio (fold_left parseOption ts conn) = Audio conn.
Proof.
  induction ts as [| t rest IH]; intros conn; simpl; [ reflexivity | ].
  rewrite IH. unfold parseOption.
  destruct (String.eqb t "spice"); [ reflexivity | ].
  destruct (strings.SplitN2 t equals) as [| k [| v [| ? ?]]]; try reflexivity.
  destruct (String.eqb _ "port"); [ reflexivity | ].
  destruct (String.eqb _ "addr"); [ reflexivity | ].
  destruct (String.eqb _ "password"); reflexivity.
Qed.

Lemma GetConnectionInfo_no_audio (displayString : string) (conn : Connection) :
  GetConnectionInfo displayString = Ok conn -> Audio conn = false.
Proof.
  unfold GetConnectionInfo.
  destruct (strings.HasPrefix displayString "spice+unix://").
  - intros H. inversion H. reflexivity.
  - destruct (strings.HasPrefix displayString "spice"); cbn [negb];
      [ | discriminate ].
    intros H. inversion H. now rewrite parseOption_keeps_Audio.
Qed.

(** A connection read from a display string never asks for audio, so a
    viewer that takes a URI is given exactly three arguments when the
    connection comes from [GetConnectionInfo]: the URI of the connection,
    the full-screen flag and the flag that turns audio off. *)
Theorem parsed_viewer_args
  (displayString viewer : string) (conn : Connection) (args : list string) :
  GetConnectionInfo displayString = Ok conn ->
  isASCII viewer = true ->
  uriViewer viewer = true ->
  buildViewerArgs viewer conn = Ok args ->
  exists uri,
    buildSpiceURI conn = Ok uri /\
    args = [uri; "--full-screen"; "--spice-disable-audio"].
Proof.
  intros Hparse _ Huri Hargs.
  pose proof (GetConnectionInfo_no_audio _ _ Hparse) as Haudio.
  unfold buildViewerArgs in Hargs. unfold uriViewer in Huri.
  rewrite Huri, Haudio in Hargs.
  destruct (buildSpiceURI conn) as [uri | e]; [ | discriminate ].
  exists uri. split; [ reflexivity | ].
  inversion Hargs. reflexivity.
Qed.

Lemma parsed_viewer_args_witness :
  exists uri,
    buildSpiceURI (mkConnection "127.0.0.1" "5930" "" "" false) = Ok uri /\
    [ "spice://127.0.0.1:5930"; "--full-screen"; "--spice-disable-audio" ]
    = [uri; "--full-screen"; "--spice-disable-audio"].
Proof.
  apply (parsed_viewer_args "spice,port=5930" "/usr/bin/remote-viewer"
           (mkConnection "127.0.0.1" "5930" "" "" false)
           [ "spice://127.0.0.1:5930"; "--full-screen";
             "--spice-disable-audio" ]);
    reflexivity.
Defined.

(** A unix-socket connection is never turned into host and port
    arguments: for a connection with a socket path, a viewer that takes a
    URI gets the socket URI as its first argument, and every other viewer
    path makes [buildViewerArgs] fail. *)
Theorem buildViewerArgs_unix_socket (viewer : string) (conn : Connection) :
  UnixPath conn <> "" ->
  isASCII viewer = true ->
  (uriViewer viewer = true ->
   buildViewerArgs viewer conn
   = Ok (("spice+unix://" ++ UnixPath conn) :: "--full-screen"
         :: (if Audio conn then [] else ["--spice-disable-audio"]))) /\
  (uriViewer viewer = false ->
   exists e, buildViewerArgs viewer conn = Err e) /\
  (uriViewer viewer = false ->
   strings.Contains (strings.ToLower viewer) "spicy" = true ->
   buildViewerArgs viewer conn
   = Err "spicy does not support Unix socket connections").
Proof.
  intros Hpath _. apply String.eqb_neq in Hpath.
  unfold buildViewerArgs, uriViewer, buildSpiceURI. rewrite Hpath. cbn [negb].
  repeat split.
  - intros H. rewrite H. now destruct (Audio conn).
  - intros H. rewrite H.
    destruct (strings.Contains (strings.ToLower viewer) "spicy");
      eexists; reflexivity.
  - intros H Hs. now rewrite H, Hs.
Qed.

Lemma buildViewerArgs_unix_socket_witness :
  buildViewerArgs "/usr/bin/spicy" (mkConnection "" "" "" "/tmp/s.sock" false)
  = Err "spicy does not support Unix socket connections".
Proof.
  destruct (buildViewerArgs_unix_socket "/usr/bin/spicy"
              (mkConnection "" "" "" "/tmp/s.sock" false))
    as (_ & _ & H); [ discriminate | reflexivity | ].
  apply H; reflexivity.
Defined.

Lemma lowerByte_idempotent (c : ascii) :
  strings.lowerByte (strings.lowerByte c) = strings.lowerByte c.
Proof.
  destruct c as [[|] [|] [|] [|] [|] [|] [|] [|]]; reflexivity.
Qed.

Lemma ToLower_idempotent (s : string) :
  strings.ToLower (strings.ToLower s) = strings.ToLower s.
Proof.
  induction s as [| c s IH]; simpl; [ reflexivity | ].
  now rewrite lowerByte_idempotent, IH.
Qed.

(** The kind of viewer is read off the path without regard to the case of
    its letters: an ASCII path and its lower-case form are given the same
    arguments, and fail together. *)
Theorem buildViewerArgs_any_case (viewer : string) (conn : Connection) :
  isASCII viewer = true ->
  forall args,
    buildViewerArgs viewer conn = Ok args
    <-> buildViewerArgs (strings.ToLower viewer) conn = Ok args.
Proof.
  intros _ args. unfold buildViewerArgs. rewrite ToLower_idempotent.
  destruct (strings.Contains (strings.ToLower viewer) "remote-viewer"
            || strings.Contains (strings.ToLower viewer) "virt-viewer");
    [ reflexivity | ].
  destruct (strings.Contains (strings.ToLower viewer) "spicy");
    [ reflexivity | ].
  split; discriminate.
Qed.

Lemma buildViewerArgs_any_case_witness :
  buildViewerArgs "C:\Tools\Remote-Viewer.EXE"
    (mkConnection "10.0.0.7" "5900" "" "" true)
  = Ok ["spice://10.0.0.7:5900"; "--full-screen"]
  <-> buildViewerArgs "c:\tools\remote-viewer.exe"
        (mkConnection "10.0.0.7" "5900" "" "" true)
      = Ok ["spice://10.0.0.7:5900"; "--full-screen"].
Proof.
  apply (buildViewerArgs_any_case "C:\Tools\Remote-Viewer.EXE"
           (mkConnection "10.0.0.7" "5900" "" "" true)).
  reflexivity.
Defined.

(** ** Launching the viewer *)

(** [LaunchViewer] starts one process at most: it succeeds only when the
    viewer that [FindViewer] found was started, with the arguments built
    for it; when the arguments cannot be built for that viewer, or no
    viewer is found, it stops with the error of that step, having started
    nothing and looked for no other viewer. *)
Theorem LaunchViewer_steps
  (goos : string) (conn : Connection) (o : Oracle) (tr : list Action) :
  let found := FindViewer goos o tr in
  (fst (LaunchViewer goos conn o tr) = None ->
   exists viewer args,
     fst found = Ok viewer /\
     buildViewerArgs viewer conn = Ok args /\
     ok (o (snd found) (Run None viewer args)) = true /\
     snd (LaunchViewer goos conn o tr)
     = (snd found ++ [Run None viewer args])%list) /\
  (forall viewer e,
      fst found = Ok viewer ->
      buildViewerArgs viewer conn = Err e ->
      LaunchViewer goos conn o tr
      = (Some ("failed to build viewer arguments: " ++ e), snd found)) /\
  (forall e,
      fst found = Err e ->
      LaunchViewer goos conn o tr
      = (Some ("failed to find SPICE viewer: " ++ e), snd found)).
Proof.
  cbv zeta. unfold LaunchViewer, bind.
  destruct (FindViewer goos o tr) as [[viewer | e] t]; cbn [fst snd].
  - destruct (buildViewerArgs viewer conn) as [args | e] eqn:Hargs.
    + unfold call, ok. cbn [fst snd].
      destruct (err (o t (Run None viewer args))) as [e |] eqn:Hstart;
        cbn [ret fst snd].
      * repeat split; try discriminate.
        intros v e' Hv He. inversion Hv; subst. congruence.
      * repeat split; try discriminate.
        -- intros _. exists viewer, args. rewrite Hstart. now repeat split.
        -- intros v e' Hv He. inversion Hv; subst. congruence.
    + cbn [ret fst snd]. repeat split; try discriminate.
      intros v e' Hv He. inversion Hv; subst.
      rewrite Hargs in He. now inversion He.
  - cbn [ret fst snd]. repeat split; try discriminate.
    intros e' He. now inversion He.
Qed.

(** On a host with [spicy] alone, a unix-socket connection is not
    launched: the candidates after [spicy] are not looked up and nothing
    is started. *)
Example LaunchViewer_no_fallback :
  LaunchViewer "linux" (mkConnection "" "" "" "/tmp/s.sock" false)
    hostWithSpicy []
  = (Some ("failed to build viewer arguments: "
           ++ "spicy does not support Unix socket connections"),
     [LookPath "remote-viewer"; LookPath "spicy"]).
Proof. reflexivity. Qed.

(** ** The clipboard agent port of the VZ driver *)

(** [attachSpiceAgent] never fails, and it does all or nothing: either the
    machine configuration is left as it was, or its console devices are
    replaced by the one device that holds the agent port under the name
    the binding gave, sharing the clipboard.  The latter happens exactly
    when a display other than [none] is configured, the clipboard is not
    disabled and every call into the binding succeeds. *)
Theorem attachSpiceAgent_all_or_nothing
  (binding : vz.Binding) (cfg : limatype.LimaYAML)
  (vmConfig : vz.VirtualMachineConfiguration) :
  let wanted :=
    match limatype.Display (limatype.video cfg) with
    | Some display => negb (String.eqb display "none")
    | None => false
    end
    && match limatype.DisableClipboard (limatype.VZ (limatype.video cfg)) with
       | Some disable => negb disable
       | None => true
       end in
  snd (vz.attachSpiceAgent binding cfg vmConfig) = None /\
  (wanted && bindingWorks binding = true ->
   exists name,
     vz.SpiceAgentPortAttachmentName binding = Ok name /\
     fst (vz.attachSpiceAgent binding cfg vmConfig) = agentConfiguration name) /\
  (wanted && bindingWorks binding = false ->
   fst (vz.attachSpiceAgent binding cfg vmConfig) = vmConfig).
Proof.
  cbv zeta. unfold vz.attachSpiceAgent, bindingWorks.
  destruct (limatype.Display (limatype.video cfg)) as [display |];
    [ destruct (String.eqb display "none") | ];
    cbn [negb andb fst snd]; try (repeat split; discriminate || reflexivity).
  destruct (limatype.DisableClipboard (limatype.VZ (limatype.video cfg)))
    as [[|] |];
    cbn [negb andb fst snd]; try (repeat split; discriminate || reflexivity).
  all: destruct (vz.SpiceAgentPortAttachmentName binding) as [name | e];
    destruct (vz.NewSpiceAgentPortAttachment binding);
    destruct (vz.NewVirtioConsoleDeviceConfiguration binding);
    destruct (vz.NewVirtioConsolePortConfiguration binding);
    cbn [isNil negb andb fst snd];
    repeat split; try discriminate; try reflexivity;
    intros _; exists name; split; reflexivity.
Qed.

(** ** The GUI information of an inspected instance *)

Lemma attachSpiceAgent_on_vz_display
  (binding : vz.Binding) (cfg : limatype.LimaYAML)
  (vmConfig : vz.VirtualMachineConfiguration) (display : string) :
  limatype.Display (limatype.video cfg) = Some display ->
  store.isVZDisplay display = true ->
  bindingWorks binding = true ->
  fst (vz.attachSpiceAgent binding cfg vmConfig)
  = match limatype.DisableClipboard (limatype.VZ (limatype.video cfg)) with
    | Some true => vmConfig
    | _ => match vz.SpiceAgentPortAttachmentName binding with
           | Ok name => agentConfiguration name
           | Err _ => vmConfig
           end
    end.
Proof.
  intros Hdisp Hvz Hworks.
  assert (Hnone : String.eqb display "none" = false).
  { unfold store.isVZDisplay in Hvz. apply orb_true_iff in Hvz.
    destruct Hvz as [H | H]; apply String.eqb_eq in H; subst; reflexivity. }
  unfold vz.attachSpiceAgent, bindingWorks in *. rewrite Hdisp, Hnone.
  destruct (vz.SpiceAgentPortAttachmentName binding) as [name | e];
    [ | discriminate ].
  destruct (vz.NewSpiceAgentPortAttachment binding); [ discriminate | ].
  destruct (vz.NewVirtioConsoleDeviceConfiguration binding);
    [ discriminate | ].
  destruct (vz.NewVirtioConsolePortConfiguration binding);
    [ discriminate | ].
  destruct (limatype.DisableClipboard (limatype.VZ (limatype.video cfg)))
    as [[|] |]; reflexivity.
Qed.

(** For a display [vz] or [default] the clipboard flag that
    [populateGUIInfo] reports is what the VZ driver does with a working
    binding: the flag is set exactly when [attachSpiceAgent] puts the
    agent port into the machine configuration, and cleared exactly when
    it leaves the configuration alone. *)
Theorem clipboard_flag_matches_driver
  (createDriver : limatype.Instance -> result bool)
  (inst : limatype.Instance) (cfg : limatype.LimaYAML) (display : string)
  (binding : vz.Binding) (vmConfig : vz.VirtualMachineConfiguration) :
  limatype.Config inst = Some cfg ->
  limatype.Display (limatype.video cfg) = Some display ->
  store.isVZDisplay display = true ->
  bindingWorks binding = true ->
  exists gui,
    limatype.GUI (store.populateGUIInfo createDriver inst) = Some gui /\
    (limatype.GUIInfo.ClipboardShared gui = true ->
     exists name,
       fst (vz.attachSpiceAgent binding cfg vmConfig) = agentConfiguration name) /\
    (limatype.GUIInfo.ClipboardShared gui = false ->
     fst (vz.attachSpiceAgent binding cfg vmConfig) = vmConfig).
Proof.
  intros Hcfg Hdisp Hvz Hworks.
  rewrite (attachSpiceAgent_on_vz_display binding cfg vmConfig display
             Hdisp Hvz Hworks).
  unfold store.populateGUIInfo. rewrite Hcfg, Hdisp.
  eexists. split; [ reflexivity | ].
  cbn [limatype.GUI limatype.GUIInfo.ClipboardShared].
  assert (Hnone : String.eqb display "none" = false).
  { unfold store.isVZDisplay in Hvz. apply orb_true_iff in Hvz.
    destruct Hvz as [H | H]; apply String.eqb_eq in H; subst; reflexivity. }
  rewrite Hnone, Hvz. cbn [negb andb].
  unfold bindingWorks in Hworks.
  destruct (vz.SpiceAgentPortAttachmentName binding) as [name | e];
    [ | discriminate ].
  destruct (limatype.DisableClipboard (limatype.VZ (limatype.video cfg)))
    as [[|] |]; cbn [negb]; split; intros H; try discriminate H;
    try reflexivity; now exists name.
Qed.

Lemma clipboard_flag_matches_driver_witness :
  exists gui,
    limatype.GUI (store.populateGUIInfo (fun _ => Ok true) vzInstance)
    = Some gui /\
    (limatype.GUIInfo.ClipboardShared gui = true ->
     exists name,
       fst (vz.attachSpiceAgent goodBinding
              (limatype.mkLimaYAML
                 (limatype.mkVideo (Some "vz")
                    (limatype.mkVZOptions (Some 1440%Z) (Some 900%Z) None))
                 (limatype.mkAudio (Some "vz")))
              (vz.mkVMConfig []))
       = agentConfiguration name) /\
    (limatype.GUIInfo.ClipboardShared gui = false ->
     fst (vz.attachSpiceAgent goodBinding
            (limatype.mkLimaYAML
               (limatype.mkVideo (Some "vz")
                  (limatype.mkVZOptions (Some 1440%Z) (Some 900%Z) None))
               (limatype.mkAudio (Some "vz")))
            (vz.mkVMConfig []))
     = vz.mkVMConfig []).
Proof.
  apply (clipboard_flag_matches_driver (fun _ => Ok true) vzInstance
           (limatype.mkLimaYAML
              (limatype.mkVideo (Some "vz")
                 (limatype.mkVZOptions (Some 1440%Z) (Some 900%Z) None))
              (limatype.mkAudio (Some "vz")))
           "vz" goodBinding (vz.mkVMConfig []));
    reflexivity.
Defined.

(** With the display off the two part ways: a configuration that sets
    [disableClipboard: false] under [display: none] is reported as sharing
    the clipboard although the driver attaches nothing. *)
Example clipboard_flag_without_display :
  let cfg :=
    limatype.mkLimaYAML
      (limatype.mkVideo (Some "none")
         (limatype.mkVZOptions None None (Some false)))
      (limatype.mkAudio None) in
  let inst := limatype.mkInstance "mac" (Some cfg) "Running" "vz" None in
  option_map limatype.GUIInfo.ClipboardShared
    (limatype.GUI (store.populateGUIInfo (fun _ => Ok false) inst))
  = Some true /\
  option_map limatype.GUIInfo.Enabled
    (limatype.GUI (store.populateGUIInfo (fun _ => Ok false) inst))
  = Some false /\
  vz.attachSpiceAgent goodBinding cfg (vz.mkVMConfig [])
  = (vz.mkVMConfig [], None).
Proof. repeat split; reflexivity. Qed.

(** ** The show-gui command *)

(** [showGUIAction] calls [RunGUI] only for an instance that exists, is
    running, has its GUI enabled and supported, is not of type [vz], and
    whose driver could be created; it succeeds exactly when [RunGUI] was
    called and returned no error.  For an instance of type [vz] it always
    fails, and never calls [RunGUI]. *)
Theorem showGUIAction_gate
  (instName : string) (inspected : limactl.Inspected)
  (createDriver runGUI : error) :
  let r := limactl.showGUIAction instName inspected createDriver runGUI in
  (snd r = true ->
   exists inst gui,
     inspected = limactl.Found inst /\
     limatype.Status inst = "Running" /\
     limatype.GUI inst = Some gui /\
     limatype.GUIInfo.Enabled gui = true /\
     limatype.GUIInfo.CanRunGUI gui = true /\
     limatype.VMType inst <> "vz" /\
     createDriver = None) /\
  (fst r = None <-> snd r = true /\ runGUI = None) /\
  (forall inst,
      inspected = limactl.Found inst ->
      limatype.VMType inst = "vz" ->
      snd r = false /\ fst r <> None).
Proof.
  cbv zeta. unfold limactl.showGUIAction.
  destruct inspected as [inst | | e]; cbn [fst snd];
    try (repeat split; try discriminate; intros; intuition discriminate).
  destruct (String.eqb (limatype.Status inst) "Running") eqn:Hs; cbn [negb];
    [ | repeat split; try discriminate; intros; intuition discriminate ].
  apply String.eqb_eq in Hs.
  destruct (limatype.GUI inst) as [gui |] eqn:Hg;
    [ | repeat split; try discriminate; intros; intuition discriminate ].
  destruct (limatype.GUIInfo.Enabled gui) eqn:He; cbn [negb];
    [ | repeat split; try discriminate; intros; intuition discriminate ].
  destruct (limatype.GUIInfo.CanRunGUI gui) eqn:Hc; cbn [negb];
    [ | repeat split; try discriminate; intros; intuition discriminate ].
  destruct (String.eqb (limatype.VMType inst) "vz") eqn:Hvz.
  { repeat split; try discriminate; intros; intuition discriminate. }
  apply String.eqb_neq in Hvz.
  destruct createDriver as [e |];
    [ repeat split; try discriminate; intros; intuition discriminate | ].
  destruct runGUI as [e |]; cbn [fst snd].
  - split; [ | split ].
    + intros _. exists inst, gui. repeat split; assumption.
    + intuition discriminate.
    + intros inst' Hi Hv. inversion Hi; subst. contradiction.
  - split; [ | split ].
    + intros _. exists inst, gui. repeat split; assumption.
    + intuition.
    + intros inst' Hi Hv. inversion Hi; subst. contradiction.
Qed.

Lemma populateGUIInfo_keeps
  (createDriver : limatype.Instance -> result bool) (inst : limatype.Instance) :
  limatype.Status (store.populateGUIInfo createDriver inst)
  = limatype.Status inst /\
  limatype.VMType (store.populateGUIInfo createDriver inst)
  = limatype.VMType inst /\
  limatype.Config (store.populateGUIInfo createDriver inst)
  = limatype.Config inst /\
  limatype.Name (store.populateGUIInfo createDriver inst)
  = limatype.Name inst.
Proof.
  unfold store.populateGUIInfo.
  destruct (limatype.Config inst) as [cfg |] eqn:Hc;
    [ | rewrite Hc; repeat split ].
  destruct (limatype.Display (limatype.video cfg));
    [ | rewrite Hc; repeat split ].
  repeat split.
Qed.

(** The command on an instance whose GUI information comes from
    [populateGUIInfo], having been empty before: it succeeds only if the configuration names a
    display other than [none], the instance is running and not of type
    [vz], the driver created at inspection reported that it can run a
    GUI, and the driver creation and the launch of the command itself
    both succeeded. *)
Theorem showGUIAction_after_inspect
  (createDriverInfo : limatype.Instance -> result bool)
  (inst : limatype.Instance) (instName : string)
  (createDriver runGUI : error) :
  limatype.GUI inst = None ->
  fst (limactl.showGUIAction instName
         (limactl.Found (store.populateGUIInfo createDriverInfo inst))
         createDriver runGUI) = None ->
  exists cfg display,
    limatype.Config inst = Some cfg /\
    limatype.Display (limatype.video cfg) = Some display /\
    display <> "none" /\
    limatype.Status inst = "Running" /\
    limatype.VMType inst <> "vz" /\
    createDriverInfo inst = Ok true /\
    createDriver = None /\ runGUI = None.
Proof.
  intros Hfresh H.
  destruct (populateGUIInfo_keeps createDriverInfo inst)
    as (Hs & Hv & _ & _).
  unfold limactl.showGUIAction in H. rewrite Hs, Hv in H.
  destruct (String.eqb (limatype.Status inst) "Running") eqn:Hrun;
    cbn [negb] in H; [ | discriminate H ].
  unfold store.populateGUIInfo in H.
  destruct (limatype.Config inst) as [cfg |] eqn:Hc;
    [ | rewrite Hfresh in H; discriminate H ].
  destruct (limatype.Display (limatype.video cfg)) as [display |] eqn:Hd;
    [ | rewrite Hfresh in H; discriminate H ].
  cbn [limatype.GUI limatype.GUIInfo.Enabled limatype.GUIInfo.CanRunGUI
       limatype.GUIInfo.Display] in H.
  destruct (String.eqb display "none") eqn:Hnone; cbn [negb] in H;
    [ discriminate H | ].
  unfold limatype.StatusRunning in H. rewrite Hrun in H. cbn [orb] in H.
  destruct (createDriverInfo inst) as [[|] | e] eqn:Hinfo; cbn [negb] in H;
    try discriminate H.
  destruct (String.eqb (limatype.VMType inst) "vz") eqn:Hvz;
    [ discriminate H | ].
  destruct createDriver as [e |]; [ discriminate H | ].
  destruct runGUI as [e |]; [ discriminate H | ].
  exists cfg, display.
  apply String.eqb_eq in Hrun. apply String.eqb_neq in Hnone.
  apply String.eqb_neq in Hvz.
  repeat split; assumption.
Qed.

Lemma showGUIAction_after_inspect_witness :
  exists cfg display,
    limatype.Config qemuInstance = Some cfg /\
    limatype.Display (limatype.video cfg) = Some display /\
    display <> "none" /\
    limatype.Status qemuInstance = "Running" /\
    limatype.VMType qemuInstance <> "vz" /\
    (fun _ : limatype.Instance => @Ok bool true) qemuInstance = Ok true /\
    @None string = None /\ @None string = None.
Proof.
  apply (showGUIAction_after_inspect (fun _ => Ok true) qemuInstance "desk"
           None None);
    reflexivity.
Defined.

(** The command on the running VZ instance: refused, nothing launched. *)
Example showGUIAction_vz :
  limactl.showGUIAction "mac"
    (limactl.Found (store.populateGUIInfo (fun _ => Ok true) vzInstance))
    None None
  = (Some (limactl.VZCannotReopen "mac"), false) /\
  option_map limatype.GUIInfo.Resolution
    (limatype.GUI (store.populateGUIInfo (fun _ => Ok true) vzInstance))
  = Some "1440x900".
Proof. split; reflexivity. Qed.

(** ** The GUI report of the guest agent *)

Ltac adds_steps_zeta :=
  repeat first
    [ apply addsOnly_ret
    | apply addsOnly_call; reflexivity
    | apply addsOnly_bind; [ | intro ]
    | progress cbv zeta
    | match goal with
      | |- addsOnly _ (if ?b then _ else _) => destruct b
      | |- addsOnly _ (match ?x with _ => _ end) => destruct x
      end ].

Lemma detectDisplay_no_repair (env : gui.Env) :
  addsOnly notRepair (gui.detectDisplay env).
Proof.
  unfold gui.detectDisplay, gui.detectX11, gui.getX11Displays,
    gui.getResolution, gui.getIdleTime, gui.getX11Resolution,
    gui.getWaylandResolution, gui.getX11IdleTime, gui.tryXrandr,
    gui.tryXdpyinfo, gui.tryWlrRandr, gui.trySwaymsg.
  adds_steps_zeta.
Qed.

Lemma DetectSpiceStatus_no_repair : addsOnly notRepair DetectSpiceStatus.
Proof.
  apply probing_addsOnly; [ | apply DetectSpiceStatus_probing ].
  intros a H. unfold notRepair. now rewrite H.
Qed.

Lemma detected_consistent (o : Oracle) (tr : list Action) :
  let st := fst (DetectSpiceStatus o tr) in
  (ErrorMessage st = "" <-> ClipboardReady st = true) /\
  (ClipboardReady st = true ->
   VPortExists st = true /\ AgentInstalled st = true /\
   AgentRunning st = true) /\
  (AgentRunning st = true -> AgentInstalled st = true).
Proof.
  cbv zeta.
  destruct (DetectSpiceStatus_fields o tr) as (_ & _ & _ & Hc & Hm & _).
  pose proof (detected_running_under_installed o tr) as Hri.
  destruct (fst (DetectSpiceStatus o tr)) as [i r v c m].
  simpl in *. subst c.
  destruct v, i, r; try discriminate Hri;
    vm_compute in Hm; subst m;
    repeat split; intros; try discriminate; try reflexivity.
Qed.

(** What [DetectGUIInfo] returns and does, by the parts of its body. *)
Lemma DetectGUIInfo_parts (env : gui.Env) (o : Oracle) (tr : list Action) :
  let shown := gui.detectDisplay env o tr in
  let t1 := snd shown in
  let st := fst (DetectSpiceStatus o t1) in
  let t2 := snd (DetectSpiceStatus o t1) in
  let repaired := EnsureSpiceAgent o t2 in
  let again := DetectSpiceStatus o (snd repaired) in
  let info := fst (gui.DetectGUIInfo env o tr) in
  (api.DisplayServer info, api.Displays info, api.SessionActive info,
   api.Resolution info, api.IdleTimeMs info) = fst shown /\
  (VPortExists st && negb (ClipboardReady st) = false ->
   api.Spice info = reportOf st /\
   snd (gui.DetectGUIInfo env o tr) = t2) /\
  (VPortExists st && negb (ClipboardReady st) = true ->
   fst repaired <> None ->
   api.Spice info = reportOf st /\
   snd (gui.DetectGUIInfo env o tr) = snd repaired) /\
  (VPortExists st && negb (ClipboardReady st) = true ->
   fst repaired = None ->
   api.Spice info
   = api.mkSpiceAgentInfo
       (AgentInstalled (fst again)) (AgentRunning (fst again))
       (VPortExists st)
       (ClipboardReady (fst again)) (ErrorMessage (fst again)) /\
   snd (gui.DetectGUIInfo env o tr) = snd again).
Proof.
  cbv zeta. unfold gui.DetectGUIInfo, bind.
  destruct (gui.detectDisplay env o tr)
    as [[[[[server displays] active] resolution] idle] t1].
  cbn [fst snd].
  destruct (DetectSpiceStatus o t1) as [st t2]. cbn [fst snd].
  destruct (VPortExists st && negb (ClipboardReady st)).
  - destruct (EnsureSpiceAgent o t2) as [[e |] t3]; cbn [fst snd].
    + repeat split; intros; try discriminate; try congruence.
    + destruct (DetectSpiceStatus o t3) as [st' t4]. cbn [fst snd].
      repeat split; intros; try discriminate; try congruence.
  - cbn [ret fst snd]. repeat split; intros; try discriminate.
Qed.

(** [DetectGUIInfo] leaves the agent alone unless the first detection
    finds the transport present and the clipboard not ready: when the
    transport is absent, or the clipboard ready, the report carries that
    detection as it is and the whole call issues no install, enable or
    start command. *)
Theorem DetectGUIInfo_no_needless_repair
  (env : gui.Env) (o : Oracle) (tr : list Action) :
  let t1 := snd (gui.detectDisplay env o tr) in
  let st := fst (DetectSpiceStatus o t1) in
  VPortExists st = false \/ ClipboardReady st = true ->
  api.Spice (fst (gui.DetectGUIInfo env o tr)) = reportOf st /\
  exists added,
    snd (gui.DetectGUIInfo env o tr) = (tr ++ added)%list /\
    forallb notRepair added = true.
Proof.
  cbv zeta. intros H.
  destruct (DetectGUIInfo_parts env o tr) as (_ & Hoff & _).
  assert (Hcond : VPortExists
                    (fst (DetectSpiceStatus o
                            (snd (gui.detectDisplay env o tr))))
                  && negb (ClipboardReady
                             (fst (DetectSpiceStatus o
                                     (snd (gui.detectDisplay env o tr)))))
                  = false).
  { destruct H as [H | H]; rewrite H; [ reflexivity | apply andb_false_r ]. }
  destruct (Hoff Hcond) as [Hs Ht]. split; [ exact Hs | ].
  destruct (detectDisplay_no_repair env o tr) as [l1 [E1 P1]].
  destruct (DetectSpiceStatus_no_repair o
              (snd (gui.detectDisplay env o tr))) as [l2 [E2 P2]].
  exists (l1 ++ l2)%list. split.
  - rewrite Ht, E2, E1. now rewrite app_assoc.
  - rewrite forallb_app. now rewrite P1, P2.
Qed.

Lemma DetectGUIInfo_no_needless_repair_witness :
  api.Spice (fst (gui.DetectGUIInfo envX11 (guest false true true false) []))
  = reportOf
      (fst (DetectSpiceStatus (guest false true true false)
              (snd (gui.detectDisplay envX11
                      (guest false true true false) [])))) /\
  exists added,
    snd (gui.DetectGUIInfo envX11 (guest false true true false) [])
    = ([] ++ added)%list /\
    forallb notRepair added = true.
Proof.
  apply (DetectGUIInfo_no_needless_repair envX11
           (guest false true true false) []).
  left. reflexivity.
Defined.

(** The clipboard part of every GUI report is consistent in three ways:
    its error message is empty exactly when it says ready; when it says
    ready it also says transport present, agent installed and agent
    running; and it never says running without saying installed. *)
Theorem DetectGUIInfo_report_consistent
  (env : gui.Env) (o : Oracle) (tr : list Action) :
  let sp := api.Spice (fst (gui.DetectGUIInfo env o tr)) in
  (api.ErrorMessage sp = "" <-> api.ClipboardReady sp = true) /\
  (api.ClipboardReady sp = true ->
   api.VportExists sp = true /\ api.AgentInstalled sp = true /\
   api.AgentRunning sp = true) /\
  (api.AgentRunning sp = true -> api.AgentInstalled sp = true).
Proof.
  cbv zeta.
  destruct (DetectGUIInfo_parts env o tr) as (_ & Hoff & Hfail & Hdone).
  set (t1 := snd (gui.detectDisplay env o tr)) in *.
  pose proof (detected_consistent o t1) as C1. cbv zeta in C1.
  destruct (VPortExists (fst (DetectSpiceStatus o t1))
            && negb (ClipboardReady (fst (DetectSpiceStatus o t1))))
    eqn:Hcond.
  - destruct (fst (EnsureSpiceAgent o (snd (DetectSpiceStatus o t1))))
      as [e |] eqn:Hens.
    + destruct (Hfail eq_refl) as [Hs _]; [ discriminate | ].
      rewrite Hs. exact C1.
    + destruct (Hdone eq_refl eq_refl) as [Hs _]. rewrite Hs.
      cbn [api.ErrorMessage api.ClipboardReady api.VportExists
           api.AgentInstalled api.AgentRunning].
      apply andb_true_iff in Hcond. destruct Hcond as [Hv _].
      pose proof (detected_consistent o
                    (snd (EnsureSpiceAgent o (snd (DetectSpiceStatus o t1)))))
        as C2.
      cbv zeta in C2. rewrite Hv. tauto.
  - destruct (Hoff eq_refl) as [Hs _]. rewrite Hs. exact C1.
Qed.

(** The one field a repair does not refresh: on a guest whose vport node
    is gone once the service was started, the report says transport
    present, agent installed and agent running, and yet not ready, with a
    message about the missing transport. *)
Example DetectGUIInfo_stale_port :
  api.Spice (fst (gui.DetectGUIInfo envEmpty guestVanishingPort []))
  = api.mkSpiceAgentInfo true true true false
      ("SPICE clipboard not ready: " ++ msgNoPort).
Proof. reflexivity. Qed.

(** The swaymsg probe never contributes: the resolution of a Wayland
    session is what the wlr-randr probe found, whatever swaymsg
    answers. *)
Theorem getWaylandResolution_is_wlr (o : Oracle) (tr : list Action) :
  fst (gui.getWaylandResolution o tr) = fst (gui.tryWlrRandr o tr).
Proof.
  unfold gui.getWaylandResolution, bind.
  destruct (gui.tryWlrRandr o tr) as [resolution t1]. cbn [fst].
  unfold gui.nonEmpty.
  destruct (String.eqb resolution "") eqn:E; cbn [negb]; [ | reflexivity ].
  apply String.eqb_eq in E. subst resolution.
  unfold gui.trySwaymsg, bind, call.
  now destruct (negb (ok _)).
Qed.

Lemma detectDisplay_session (env : gui.Env) (o : Oracle) (tr : list Action) :
  let '(server, displays, active, resolution, idle) :=
    fst (gui.detectDisplay env o tr) in
  (active = true <-> displays <> []) /\
  (active = false -> resolution = "" /\ idle = 0%Z) /\
  (gui.detectWayland env = true ->
   server = "Wayland" /\ displays = gui.getWaylandDisplays env /\
   idle = 0%Z) /\
  (gui.detectWayland env = false ->
   server = "X11" \/ (server = "none" /\ displays = [])).
Proof.
  unfold gui.detectDisplay, bind.
  destruct (gui.detectWayland env).
  - cbn [ret fst snd].
    destruct (gui.getWaylandDisplays env) as [| d ds];
      cbn [List.length Nat.ltb Nat.leb ret fst snd].
    + repeat split; intros; try discriminate; try congruence.
    + destruct (gui.getResolution "Wayland" o tr) as [resolution t1].
      cbn [fst snd gui.getIdleTime String.eqb Ascii.eqb Bool.eqb ret].
      repeat split; intros; try discriminate; try congruence.
  - destruct (gui.detectX11 env o tr) as [[|] t1].
    + destruct (gui.getX11Displays env o t1) as [[| d ds] t2];
        cbn [List.length Nat.ltb Nat.leb ret fst snd].
      * repeat split; intros; try discriminate; try congruence; auto.
      * destruct (gui.getResolution "X11" o t2) as [resolution t3].
        destruct (gui.getIdleTime "X11" o t3) as [idle t4].
        cbn [fst snd].
        repeat split; intros; try discriminate; try congruence; auto.
    + cbn [List.length Nat.ltb Nat.leb ret fst snd].
      repeat split; intros; try discriminate; try congruence; auto.
Qed.

(** The display part of a GUI report: a session is active exactly when a
    display was found; without a session no resolution and no idle time
    are reported; when the environment speaks of Wayland the server is
    Wayland, its displays are those of [WAYLAND_DISPLAY], the idle time is
    0 and X11 is not considered; otherwise the server is X11, or [none]
    with no display. *)
Theorem DetectGUIInfo_session
  (env : gui.Env) (o : Oracle) (tr : list Action) :
  let info := fst (gui.DetectGUIInfo env o tr) in
  (api.SessionActive info = true <-> api.Displays info <> []) /\
  (api.SessionActive info = false ->
   api.Resolution info = "" /\ api.IdleTimeMs info = 0%Z) /\
  (gui.detectWayland env = true ->
   api.DisplayServer info = "Wayland" /\
   api.Displays info = gui.getWaylandDisplays env /\
   api.IdleTimeMs info = 0%Z) /\
  (gui.detectWayland env = false ->
   api.DisplayServer info = "X11" \/
   (api.DisplayServer info = "none" /\ api.Displays info = [])).
Proof.
  cbv zeta.
  destruct (DetectGUIInfo_parts env o tr) as (Hd & _).
  pose proof (detectDisplay_session env o tr) as S.
  destruct (fst (gui.detectDisplay env o tr))
    as [[[[server displays] active] resolution] idle].
  inversion Hd as [[H0 H1 H2 H3 H4]].
  rewrite H0, H1, H2, H3, H4. exact S.
Qed.

(** A session type of [wayland] without [WAYLAND_DISPLAY] hides a running
    X11 display: the server is reported as Wayland with no session. *)
Example DetectGUIInfo_wayland_type_only :
  let info :=
    fst (gui.DetectGUIInfo envWaylandType (guest true true true false) []) in
  api.DisplayServer info = "Wayland" /\ api.SessionActive info = false /\
  envWaylandType "DISPLAY" = ":0".
Proof. repeat split; reflexivity. Qed.

(** ** What the supervisor may run *)

Lemma detectorProbe_supervisorAction (a : Action) :
  detectorProbe a = true -> supervisorAction a = true.
Proof. unfold supervisorAction. intros H. now rewrite H. Qed.



(** ** Reading the resolution off xrandr *)






Example tryXrandr_current_mode :
  fst (gui.tryXrandr guestXrandr []) = "1920x1080".
Proof. reflexivity. Qed.

(** ** The errors of the supervisor *)



